(** * Energy-based GAN losses

    A shallow embedding of [torchgan/losses/energybased.py]: the three loss
    classes [EnergyBasedGeneratorLoss], [EnergyBasedPullingAwayTerm] and
    [EnergyBasedDiscriminatorLoss], their [forward] functions and their
    [train_ops] procedures.

    Numbers are exact rationals ([Q]), so the statements below are about the
    real-valued formulas the code computes, not about IEEE rounding.  A
    tensor of scores is the list of its elements in row-major order (the
    reductions and the elementwise operations do not depend on the shape);
    a batch of vectors is the list of its rows. *)

From Stdlib Require Import QArith Qminmax ZArith List String Lia Lqa Bool.
From Stdlib Require Reals Qreals Lra.
Import ListNotations.

Open Scope Q_scope.

(** ** Tensors and reductions *)

Definition Tensor := list Q.
Definition Batch := list (list Q).

Inductive Reduction := ReduceNone | ReduceMean | ReduceSum.

(** What a [forward] returns: a tensor when nothing is aggregated, a scalar
    otherwise. *)
Inductive LossValue :=
| Unreduced (t : Tensor)
| Scalar (q : Q).

Definition loss_eq (a b : LossValue) : Prop :=
  match a, b with
  | Scalar x, Scalar y => x == y
  | Unreduced s, Unreduced t => Forall2 Qeq s t
  | _, _ => False
  end.

Fixpoint tensor_sum (t : Tensor) : Q :=
  match t with
  | [] => 0
  | x :: t' => x + tensor_sum t'
  end.

Definition numel (t : Tensor) : Q := inject_Z (Z.of_nat (List.length t)).

Definition tensor_mean (t : Tensor) : Q := tensor_sum t / numel t.

Fixpoint zip_with (f : Q -> Q -> Q) (a b : Tensor) : Tensor :=
  match a, b with
  | x :: a', y :: b' => f x y :: zip_with f a' b'
  | _, _ => []
  end.

(** Modelled from the spec: the helper [reduce] of
    [torchgan/losses/functional.py], which is not among the sources.  It is
    the elementwise no-op for "none" and the mean or the sum of all elements
    for "mean" and "sum". *)
Definition reduce (x : Tensor) (reduction : Reduction) : LossValue :=
  match reduction with
  | ReduceNone => Unreduced x
  | ReduceMean => Scalar (tensor_mean x)
  | ReduceSum => Scalar (tensor_sum x)
  end.

(** Modelled from the spec: [energy_based_generator_loss] of
    [torchgan/losses/functional.py] (not among the sources): the
    discriminator's score on generated data, reduced. *)
Definition energy_based_generator_loss (dgz : Tensor) (reduction : Reduction)
  : LossValue :=
  reduce dgz reduction.

(** The elementwise margin energy [dx + max(0, margin - dgz)]. *)
Definition margin_energy (margin x g : Q) : Q := x + Qmax 0 (margin - g).

(** Modelled from the spec: [energy_based_discriminator_loss] of
    [torchgan/losses/functional.py] (not among the sources): the reduction
    of [dx + max(0, margin - dgz)], taken elementwise. *)
Definition energy_based_discriminator_loss
  (dx dgz : Tensor) (margin : Q) (reduction : Reduction) : LossValue :=
  reduce (zip_with (margin_energy margin) dx dgz) reduction.

Definition dot (a b : list Q) : Q := tensor_sum (zip_with Qmult a b).

(** The square of the cosine similarity [a.b / (|a| |b|)].  Since
    [|a|^2 = a.a] the square needs no root: it is [(a.b)^2 / ((a.a) (b.b))],
    a rational number; [cosine_similarity_sq_real] below shows it equal to
    the square of [OverReals.cosine_similarity], which has the norms. *)
Definition cosine_similarity_sq (a b : list Q) : Q :=
  (dot a b) ^ 2 / (dot a a * dot b b).

(** The same quantities over the real numbers, with the Euclidean norm. *)
Module OverReals.
Import Reals Qreals.
Local Open Scope R_scope.

Fixpoint inner (a b : list R) : R :=
  match a, b with
  | x :: a', y :: b' => x * y + inner a' b'
  | _, _ => 0
  end.

Definition norm (a : list R) : R := sqrt (inner a a).

(** The cosine similarity as the spec writes it: [a.b / (|a| |b|)]. *)
Definition cosine_similarity (a b : list R) : R :=
  inner a b / (norm a * norm b).

End OverReals.

Definition sum_over {A : Type} (f : A -> Q) (l : list A) : Q :=
  tensor_sum (map f l).

Definition row (X : Batch) (i : nat) : list Q := nth i X [].

(** The sum over all ordered pairs [i <> j] of rows of [X]. *)
Definition pair_sum (X : Batch) : Q :=
  let idx := seq 0 (List.length X) in
  sum_over (fun i =>
    sum_over (fun j =>
      if Nat.eqb i j then 0 else cosine_similarity_sq (row X i) (row X j))
      idx) idx.

Definition batch_len (X : Batch) : Q := inject_Z (Z.of_nat (List.length X)).

(** Modelled from the spec: [energy_based_pulling_away_term] of
    [torchgan/losses/functional.py] (not among the sources): for a batch of
    [N] embedding vectors, [(1/(N(N-1)))] times the sum over [i] and
    [j <> i] of the squared cosine similarity of rows [i] and [j]. *)
Definition energy_based_pulling_away_term (d_hid : Batch) : Q :=
  (1 / (batch_len d_hid * (batch_len d_hid - 1))) * pair_sum d_hid.

(** ** Python values, models and the mutable store *)

Record Generator := {
  generator_id : nat;
  label_type : string;
  encoding_dims : Z
}.

(** [is_autoencoding d] is the result of
    [isinstance(d, AutoEncodingDiscriminator)]. *)
Record Discriminator := {
  discriminator_id : nat;
  is_autoencoding : bool
}.

Inductive PyVal :=
| PyNone
| PyInt (n : Z)
| PyFloat (x : Q)
| PyLoss (v : LossValue)
| PyTensor (t : Batch)
| PyDevice (name : string)
| PyOptimizer (id : nat)
| PyGenerator (g : Generator)
| PyDiscriminator (d : Discriminator)
| PyLossObject (reduction : Reduction) (margin : Q).

(** What calling a discriminator returns, as far as the unpacking
    [d_hid, dgz = discriminator(fake)] can tell:
    - [HiddenAndScore]: the pair (hidden embedding, score) of an
      autoencoding discriminator whose [embeddings] attribute is set;
    - [TwoSlices]: a single tensor whose first dimension is 2, given by
      its two slices along that dimension; Python iterates over it and
      unpacks it like a pair;
    - [ScoreOnly]: a single tensor that does not unpack into two names
      (its first dimension is not 2, or it has no dimension). *)
Inductive DiscOutput :=
| ScoreOnly (dgz : Tensor)
| HiddenAndScore (d_hid : Batch) (dgz : Tensor)
| TwoSlices (first : Batch) (second : Tensor).

Inductive Outcome (A : Type) :=
| Returns (a : A)
| Raises (msg : string).
Arguments Returns {A} a.
Arguments Raises {A} msg.

(** The calls that leave this module, and the attribute writes it makes,
    in the order they happen. *)
Inductive Event :=
| SetEmbeddings (d : Discriminator) (v : bool)
| CallRandn (batch_size encoding_dims : Z) (device : string)
| CallZeroGrad (optimizer : nat)
| CallGenerator (g : Generator) (noise : Batch)
| CallDiscriminator (d : Discriminator) (fake : Batch)
| CallBackward (loss : Q)
| CallStep (optimizer : nat)
| CallOverride (args : list PyVal)
| CallBaseTrainOps (args : list PyVal).

Definition is_write (e : Event) : bool :=
  match e with
  | SetEmbeddings _ _ => true
  | _ => false
  end.

Definition MSG_AUTOENCODER : string :=
  "EBGAN PT requires the Discriminator to be a AutoEncoder"%string.
Definition MSG_LABELS : string :=
  "EBGAN PT supports models which donot require labels"%string.
Definition MSG_EMBEDDINGS : string :=
  "EBGAN PT requires the embeddings for loss computation"%string.
Definition MSG_UNBOUND : string :=
  "local variable 'orig_value' referenced before assignment"%string.
Definition MSG_UNPACK : string :=
  "cannot unpack discriminator output into (d_hid, dgz)"%string.

Section Store.

(** Everything the collaborators own: parameters, gradients, optimizer
    state, the random generator. *)
Variable Ext : Type.

(** The shared store: the [embeddings] attribute of each discriminator
    object, by object identity, and the collaborators' state. *)
Record World := {
  embeddings : nat -> bool;
  ext : Ext
}.

(** A call into a collaborator: it may change the store and may raise. *)
Definition Effect (A : Type) : Type := World -> Outcome A * World.

Definition Override : Type := list PyVal -> Effect PyVal.

Record Machine := {
  world : World;
  trace : list Event
}.

Definition M (A : Type) : Type := Machine -> Outcome A * Machine.

Definition ret {A : Type} (a : A) : M A := fun m => (Returns a, m).

Definition raise {A : Type} (msg : string) : M A := fun m => (Raises msg, m).

Definition bind {A B : Type} (c : M A) (k : A -> M B) : M B :=
  fun m =>
    match c m with
    | (Returns a, m') => k a m'
    | (Raises msg, m') => (Raises msg, m')
    end.

(** An outgoing call: recorded in the trace, then run on the store. *)
Definition call {A : Type} (e : Event) (f : Effect A) : M A :=
  fun m =>
    let (r, w') := f (world m) in
    (r, {| world := w'; trace := trace m ++ [e] |}).

Definition set_flag (d : Discriminator) (v : bool) (w : World) : World :=
  {| embeddings := fun i =>
       if Nat.eqb i (discriminator_id d) then v else embeddings w i;
     ext := ext w |}.

(** [getattr(discriminator, "embeddings")] *)
Definition getattr_embeddings (d : Discriminator) : M bool :=
  fun m => (Returns (embeddings (world m) (discriminator_id d)), m).

(** [setattr(discriminator, "embeddings", v)] *)
Definition setattr_embeddings (d : Discriminator) (v : bool) : M unit :=
  fun m =>
    (Returns tt,
     {| world := set_flag d v (world m);
        trace := trace m ++ [SetEmbeddings d v] |}).

(** ** The loss objects *)

Record EnergyBasedGeneratorLoss := {
  g_reduction : Reduction;
  g_override_train_ops : option Override
}.

(** [__init__] fixes the reduction of the base class to "mean". *)
Record EnergyBasedPullingAwayTerm := {
  pt_ratio : Q;
  pt_override_train_ops : option Override
}.

Definition pt_reduction (self : EnergyBasedPullingAwayTerm) : Reduction :=
  ReduceMean.

Record EnergyBasedDiscriminatorLoss := {
  d_reduction : Reduction;
  margin : Q;
  d_override_train_ops : option Override
}.

(** The loss object as it appears in an argument list. *)
Definition py_self (self : EnergyBasedDiscriminatorLoss) : PyVal :=
  PyLossObject (d_reduction self) (margin self).

(** The collaborators of this module: [torch.randn], the optimizer, the
    two models, [loss.backward()], and the [train_ops] of the base
    classes [GeneratorLoss] and [DiscriminatorLoss], reached through
    [super()].  They are parameters: every statement below holds for all
    of them. *)
Record Collaborators := {
  torch_randn : Z -> Z -> string -> Effect Batch;
  zero_grad : nat -> Effect unit;
  generator_forward : Generator -> Batch -> Effect Batch;
  discriminator_forward : Discriminator -> Batch -> Effect DiscOutput;
  backward : Q -> Effect unit;
  optimizer_step : nat -> Effect unit;
  generator_loss_train_ops :
    EnergyBasedGeneratorLoss -> list PyVal -> Effect PyVal;
  discriminator_loss_train_ops :
    EnergyBasedDiscriminatorLoss -> list PyVal -> Effect PyVal
}.

End Store.

Arguments embeddings {Ext} w i.
Arguments ext {Ext} w.
Arguments Build_World {Ext} embeddings ext.
Arguments world {Ext} m.
Arguments trace {Ext} m.
Arguments Build_Machine {Ext} world trace.
Arguments ret {Ext A} a m.
Arguments raise {Ext A} msg m.
Arguments bind {Ext A B} c k m.
Arguments call {Ext A} e f m.
Arguments set_flag {Ext} d v w.
Arguments getattr_embeddings {Ext} d m.
Arguments setattr_embeddings {Ext} d v m.
Arguments g_reduction {Ext} self : rename.
Arguments g_override_train_ops {Ext} self : rename.
Arguments Build_EnergyBasedGeneratorLoss {Ext} g_reduction g_override_train_ops.
Arguments pt_ratio {Ext} self : rename.
Arguments pt_override_train_ops {Ext} self : rename.
Arguments Build_EnergyBasedPullingAwayTerm {Ext} pt_ratio pt_override_train_ops.
Arguments pt_reduction {Ext} self.
Arguments d_reduction {Ext} self : rename.
Arguments margin {Ext} self : rename.
Arguments d_override_train_ops {Ext} self : rename.
Arguments Build_EnergyBasedDiscriminatorLoss {Ext} d_reduction margin d_override_train_ops.
Arguments py_self {Ext} self.
Arguments torch_randn {Ext} env : rename.
Arguments zero_grad {Ext} env : rename.
Arguments generator_forward {Ext} env : rename.
Arguments discriminator_forward {Ext} env : rename.
Arguments backward {Ext} env : rename.
Arguments optimizer_step {Ext} env : rename.
Arguments generator_loss_train_ops {Ext} env : rename.
Arguments discriminator_loss_train_ops {Ext} env : rename.
Arguments Build_Collaborators {Ext}.

Notation "x <- c ;; k" := (bind c (fun x => k))
  (at level 61, c at next level, right associativity).
Notation "c ;;; k" := (bind c (fun _ => k))
  (at level 61, right associativity).

(** ** The three losses *)

Section Losses.

Context {Ext : Type}.

(** The collaborators in use. *)
Variable env : Collaborators Ext.

(** [if not cond: raise Exception(msg)] *)
Definition require (cond : bool) (msg : string) : M Ext unit :=
  if cond then ret tt else raise msg.

(** *** EnergyBasedGeneratorLoss *)

Definition EnergyBasedGeneratorLoss_forward
  (self : EnergyBasedGeneratorLoss Ext) (dgz : Tensor) : LossValue :=
  energy_based_generator_loss dgz (g_reduction self).

(** The positional arguments of a generator-side [train_ops]. *)
Definition generator_args
  (generator : Generator) (discriminator : Discriminator)
  (optimizer_generator : nat) (device : string) (batch_size : Z)
  (labels : PyVal) : list PyVal :=
  [PyGenerator generator; PyDiscriminator discriminator;
   PyOptimizer optimizer_generator; PyDevice device; PyInt batch_size;
   labels].

Definition EnergyBasedGeneratorLoss_train_ops
  (self : EnergyBasedGeneratorLoss Ext)
  (generator : Generator) (discriminator : Discriminator)
  (optimizer_generator : nat) (device : string) (batch_size : Z)
  (labels : PyVal) : M Ext PyVal :=
  match g_override_train_ops self with
  | Some override =>
      let args := [PyGenerator generator; PyDiscriminator discriminator;
                   PyOptimizer optimizer_generator; PyDevice device;
                   PyInt batch_size; labels] in
      call (CallOverride args) (override args)
  | None =>
      orig_value <-
        (if is_autoencoding discriminator then
           v <- getattr_embeddings discriminator ;;
           setattr_embeddings discriminator false ;;;
           ret (Some v)
         else ret None) ;;
      let args := [PyGenerator generator; PyDiscriminator discriminator;
                   PyOptimizer optimizer_generator; PyDevice device;
                   PyInt batch_size; labels] in
      loss <- call (CallBaseTrainOps args)
                   (generator_loss_train_ops env self args) ;;
      (if is_autoencoding discriminator then
         match orig_value with
         | Some v => setattr_embeddings discriminator v
         | None => raise MSG_UNBOUND
         end
       else ret tt) ;;;
      ret loss
  end.

(** *** EnergyBasedPullingAwayTerm *)

Definition EnergyBasedPullingAwayTerm_forward
  (self : EnergyBasedPullingAwayTerm Ext) (dgz : Tensor) (d_hid : Batch) : Q :=
  pt_ratio self * energy_based_pulling_away_term d_hid.

(** [d_hid, dgz = discriminator(fake)]: a pair is taken apart; a tensor
    whose first dimension is 2 is unpacked into its two slices, the first
    becoming [d_hid] and the second [dgz]; any other tensor does not unpack
    into two names, and the assignment raises. *)
Definition unpack_pair (out : DiscOutput) : M Ext (Batch * Tensor) :=
  match out with
  | HiddenAndScore d_hid dgz => ret (d_hid, dgz)
  | TwoSlices first second => ret (first, second)
  | ScoreOnly _ => raise MSG_UNPACK
  end.

Definition EnergyBasedPullingAwayTerm_train_ops
  (self : EnergyBasedPullingAwayTerm Ext)
  (generator : Generator) (discriminator : Discriminator)
  (optimizer_generator : nat) (device : string) (batch_size : Z)
  (labels : PyVal) : M Ext PyVal :=
  match pt_override_train_ops self with
  | Some override =>
      let args := [PyGenerator generator; PyDiscriminator discriminator;
                   PyOptimizer optimizer_generator; PyDevice device;
                   PyInt batch_size; labels] in
      call (CallOverride args) (override args)
  | None =>
      require (is_autoencoding discriminator) MSG_AUTOENCODER ;;;
      require (String.eqb (label_type generator) "none") MSG_LABELS ;;;
      flag <- getattr_embeddings discriminator ;;
      require flag MSG_EMBEDDINGS ;;;
      noise <- call (CallRandn batch_size (encoding_dims generator) device)
                    (torch_randn env batch_size (encoding_dims generator)
                                 device) ;;
      call (CallZeroGrad optimizer_generator)
           (zero_grad env optimizer_generator) ;;;
      fake <- call (CallGenerator generator noise)
                   (generator_forward env generator noise) ;;
      out <- call (CallDiscriminator discriminator fake)
                  (discriminator_forward env discriminator fake) ;;
      hs <- unpack_pair out ;;
      let loss := EnergyBasedPullingAwayTerm_forward self (snd hs) (fst hs) in
      call (CallBackward loss) (backward env loss) ;;;
      call (CallStep optimizer_generator)
           (optimizer_step env optimizer_generator) ;;;
      ret (PyFloat loss)
  end.

(** *** EnergyBasedDiscriminatorLoss *)

Definition EnergyBasedDiscriminatorLoss_forward
  (self : EnergyBasedDiscriminatorLoss Ext) (dx dgz : Tensor) : LossValue :=
  energy_based_discriminator_loss dx dgz (margin self) (d_reduction self).

(** The positional arguments [train_ops] of the discriminator loss itself
    receives (after [self]). *)
Definition discriminator_args
  (generator : Generator) (discriminator : Discriminator)
  (optimizer_discriminator : nat) (real_inputs : Batch) (device : string)
  (batch_size : Z) (labels : PyVal) : list PyVal :=
  [PyGenerator generator; PyDiscriminator discriminator;
   PyOptimizer optimizer_discriminator; PyTensor real_inputs;
   PyDevice device; PyInt batch_size; labels].

(** The positional arguments the base class's train-step is called with
    through [super()]: there is no [batch_size] among them. *)
Definition base_discriminator_args
  (generator : Generator) (discriminator : Discriminator)
  (optimizer_discriminator : nat) (real_inputs : Batch) (device : string)
  (labels : PyVal) : list PyVal :=
  [PyGenerator generator; PyDiscriminator discriminator;
   PyOptimizer optimizer_discriminator; PyTensor real_inputs;
   PyDevice device; labels].

Definition EnergyBasedDiscriminatorLoss_train_ops
  (self : EnergyBasedDiscriminatorLoss Ext)
  (generator : Generator) (discriminator : Discriminator)
  (optimizer_discriminator : nat) (real_inputs : Batch) (device : string)
  (batch_size : Z) (labels : PyVal) : M Ext PyVal :=
  match d_override_train_ops self with
  | Some override =>
      let args := [py_self self; PyGenerator generator;
                   PyDiscriminator discriminator;
                   PyOptimizer optimizer_discriminator; PyTensor real_inputs;
                   PyDevice device; labels] in
      call (CallOverride args) (override args)
  | None =>
      orig_value <-
        (if is_autoencoding discriminator then
           v <- getattr_embeddings discriminator ;;
           setattr_embeddings discriminator false ;;;
           ret (Some v)
         else ret None) ;;
      let args := [PyGenerator generator; PyDiscriminator discriminator;
                   PyOptimizer optimizer_discriminator; PyTensor real_inputs;
                   PyDevice device; labels] in
      loss <- call (CallBaseTrainOps args)
                   (discriminator_loss_train_ops env self args) ;;
      (if is_autoencoding discriminator then
         match orig_value with
         | Some v => setattr_embeddings discriminator v
         | None => raise MSG_UNBOUND
         end
       else ret tt) ;;;
      ret loss
  end.

End Losses.

(** ** Vocabulary of the statements *)

Section Vocabulary.

Context {Ext : Type}.

(** [c] does nothing but call [override] on [args]: the outcome and the
    store are the override's, and the call is the only event. *)
Definition delegates_to
  (override : Override Ext) (args : list PyVal) (c : M Ext PyVal) : Prop :=
  forall m,
    c m = (fst (override args (world m)),
           {| world := snd (override args (world m));
              trace := trace m ++ [CallOverride args] |}).

(** The value of [discriminator.embeddings] in a store. *)
Definition flag_of (d : Discriminator) (w : World Ext) : bool :=
  embeddings w (discriminator_id d).

(** A collaborator call that leaves the [embeddings] attribute of [d] as it
    found it. *)
Definition keeps_flag {A : Type} (d : Discriminator) (f : Effect Ext A)
  : Prop :=
  forall w, flag_of d (snd (f w)) = flag_of d w.

Definition collaborators_keep_flag
  (env : Collaborators Ext) (d : Discriminator) : Prop :=
  (forall n k dev, keeps_flag d (torch_randn env n k dev))
  /\ (forall o, keeps_flag d (zero_grad env o))
  /\ (forall g x, keeps_flag d (generator_forward env g x))
  /\ (forall d' x, keeps_flag d (discriminator_forward env d' x))
  /\ (forall l, keeps_flag d (backward env l))
  /\ (forall o, keeps_flag d (optimizer_step env o)).

(** The events a computation adds to the trace. *)
Definition emits {A : Type} (c : M Ext A) (m : Machine Ext)
  (events : list Event) : Prop :=
  trace (snd (c m)) = trace m ++ events.

Definition no_write (events : list Event) : Prop :=
  forallb (fun e => negb (is_write e)) events = true.

(** A computation that writes no attribute: whatever it adds to the trace
    contains no [SetEmbeddings]. *)
Definition writes_nothing {A : Type} (c : M Ext A) : Prop :=
  forall m, exists events, emits c m events /\ no_write events.

(** A computation after which [discriminator.embeddings] is what it was. *)
Definition preserves_flag {A : Type} (d : Discriminator) (c : M Ext A)
  : Prop :=
  forall m, flag_of d (world (snd (c m))) = flag_of d (world m).

End Vocabulary.

(** ** The calls of one pulling-away step *)

(** The calls a complete default train-step of the pulling-away term makes,
    in order. *)
Definition pulling_away_script
  (g : Generator) (d : Discriminator) (o : nat) (dev : string) (n : Z)
  (noise fake : Batch) (loss : Q) : list Event :=
  [CallRandn n (encoding_dims g) dev; CallZeroGrad o; CallGenerator g noise;
   CallDiscriminator d fake; CallBackward loss; CallStep o].

(** The store in which a wrapped train-step runs the base class's
    train-step: the caller's, with the flag of an autoencoding
    discriminator disabled. *)
Definition store_for_base {Ext : Type} (d : Discriminator) (w : World Ext)
  : World Ext :=
  if is_autoencoding d then set_flag d false w else w.

(** ** Concrete collaborators

    A small world to run the train-steps in: the collaborators' state
    is the number of optimizer steps taken so far. *)

Module Fixture.

Definition mnist_generator : Generator :=
  {| generator_id := 0; label_type := "none"; encoding_dims := 2 |}.

Definition conditional_generator : Generator :=
  {| generator_id := 3; label_type := "required"; encoding_dims := 2 |}.

Definition autoencoder : Discriminator :=
  {| discriminator_id := 1; is_autoencoding := true |}.

Definition dcgan_discriminator : Discriminator :=
  {| discriminator_id := 2; is_autoencoding := false |}.

Definition adam : nat := 7%nat.

Definition cpu : string := "cpu"%string.

Definition count_step (w : World nat) : World nat :=
  {| embeddings := embeddings w; ext := S (ext w) |}.

Definition scores (x : Batch) : Tensor := map tensor_sum x.

(** The row sums alone, as a column of shape (N, 1): for two rows it is a
    tensor of first dimension 2, with the slices [[s0]] and [[s1]]. *)
Definition bare_scores (x : Batch) : DiscOutput :=
  match scores x with
  | [s0; s1] => TwoSlices [[s0]] [s1]
  | s => ScoreOnly s
  end.

(** The generator is the identity on its noise; an autoencoding
    discriminator returns the pair (input, row sums) while its flag is set
    and the row sums alone otherwise. *)
Definition discriminate (d : Discriminator) (x : Batch)
  : Effect nat DiscOutput :=
  fun w =>
    if is_autoencoding d && embeddings w (discriminator_id d)
    then (Returns (HiddenAndScore x (scores x)), w)
    else (Returns (bare_scores x), w).

Definition base_step (args : list PyVal) : Effect nat PyVal :=
  fun w => (Returns (PyFloat 0), count_step w).

Definition base_crash (args : list PyVal) : Effect nat PyVal :=
  fun w => (Raises "CUDA out of memory"%string, w).

Definition healthy : Collaborators nat :=
  {| torch_randn := fun batch_size dims device w =>
       (Returns [[1; 0]; [0; 1]], w);
     zero_grad := fun o w => (Returns tt, w);
     generator_forward := fun g noise w => (Returns noise, w);
     discriminator_forward := discriminate;
     backward := fun loss w => (Returns tt, w);
     optimizer_step := fun o w => (Returns tt, count_step w);
     generator_loss_train_ops := fun self => base_step;
     discriminator_loss_train_ops := fun self => base_step |}.

(** The same collaborators, except that the base classes' train-step
    raises. *)
Definition crashing : Collaborators nat :=
  {| torch_randn := torch_randn healthy;
     zero_grad := zero_grad healthy;
     generator_forward := generator_forward healthy;
     discriminator_forward := discriminator_forward healthy;
     backward := backward healthy;
     optimizer_step := optimizer_step healthy;
     generator_loss_train_ops := fun self => base_crash;
     discriminator_loss_train_ops := fun self => base_crash |}.

(** The same collaborators, except that the discriminator returns its
    scores alone whatever its flag. *)
Definition score_only : Collaborators nat :=
  {| torch_randn := torch_randn healthy;
     zero_grad := zero_grad healthy;
     generator_forward := generator_forward healthy;
     discriminator_forward := fun d x w => (Returns (bare_scores x), w);
     backward := backward healthy;
     optimizer_step := optimizer_step healthy;
     generator_loss_train_ops := fun self => base_step;
     discriminator_loss_train_ops := fun self => base_step |}.

(** An override that hands back its first positional argument. *)
Definition first_argument : Override nat :=
  fun args w => (Returns (hd PyNone args), w).

Definition all_enabled : World nat :=
  {| embeddings := fun _ => true; ext := 0%nat |}.

Definition all_disabled : World nat :=
  {| embeddings := fun _ => false; ext := 0%nat |}.

Definition start (w : World nat) : Machine nat :=
  {| world := w; trace := [] |}.

Definition generator_loss : EnergyBasedGeneratorLoss nat :=
  {| g_reduction := ReduceMean; g_override_train_ops := None |}.

Definition pulling_away : EnergyBasedPullingAwayTerm nat :=
  {| pt_ratio := 1 # 10; pt_override_train_ops := None |}.

Definition discriminator_loss : EnergyBasedDiscriminatorLoss nat :=
  {| d_reduction := ReduceMean; margin := 80; d_override_train_ops := None |}.

Definition real_batch : Batch := [[1; 2]; [3; 4]].

Definition overridden_discriminator_loss : EnergyBasedDiscriminatorLoss nat :=
  {| d_reduction := ReduceMean; margin := 80;
     d_override_train_ops := Some first_argument |}.

(** An override with the parameters of the discriminator loss's own
    [train_ops], (generator, discriminator, optimizer_discriminator,
    real_inputs, device, batch_size, labels), that hands back its
    [batch_size], the sixth of them. *)
Definition batch_size_of_discriminator_step : Override nat :=
  fun args w => (Returns (nth 5 args PyNone), w).

(** The same for the generator loss, whose [train_ops] has the parameters
    (generator, discriminator, optimizer_generator, device, batch_size,
    labels): [batch_size] is the fifth. *)
Definition batch_size_of_generator_step : Override nat :=
  fun args w => (Returns (nth 4 args PyNone), w).

Definition batch_size_reading_discriminator_loss
  : EnergyBasedDiscriminatorLoss nat :=
  {| d_reduction := ReduceMean; margin := 80;
     d_override_train_ops := Some batch_size_of_discriminator_step |}.

Definition batch_size_reading_generator_loss : EnergyBasedGeneratorLoss nat :=
  {| g_reduction := ReduceMean;
     g_override_train_ops := Some batch_size_of_generator_step |}.

End Fixture.

(** ** Facts about sums and elementwise maps *)

Lemma zip_with_length (f : Q -> Q -> Q) (a b : Tensor) :
  List.length a = List.length b ->
  List.length (zip_with f a b) = List.length a.
Proof.
  revert b; induction a as [|x a IH]; intros [|y b] H; simpl in *;
    try discriminate; auto.
Qed.

Lemma zip_with_nth (f : Q -> Q -> Q) (a b : Tensor) (i : nat) :
  List.length a = List.length b -> (i < List.length a)%nat ->
  nth i (zip_with f a b) 0 = f (nth i a 0) (nth i b 0).
Proof.
  revert b i; induction a as [|x a IH]; intros [|y b] i H Hi; simpl in *;
    try discriminate; try lia.
  destruct i as [|i]; [reflexivity|].
  apply IH; lia.
Qed.

Lemma margin_energy_saturated (m x g : Q) : m <= g -> margin_energy m x g == x.
Proof.
  intros H. unfold margin_energy.
  rewrite (Q.max_l 0 (m - g)) by lra. lra.
Qed.

Lemma tensor_sum_saturated (m : Q) (dx dgz : Tensor) :
  List.length dx = List.length dgz ->
  Forall (fun g => m <= g) dgz ->
  tensor_sum (zip_with (margin_energy m) dx dgz) == tensor_sum dx.
Proof.
  revert dgz; induction dx as [|x dx IH]; intros [|g dgz] Hlen Hall;
    simpl in *; try discriminate; try reflexivity.
  inversion Hall; subst.
  rewrite margin_energy_saturated by assumption.
  rewrite IH by (auto; lia). reflexivity.
Qed.

Lemma sum_over_zero {A : Type} (f : A -> Q) (l : list A) :
  (forall x, In x l -> f x == 0) -> sum_over f l == 0.
Proof.
  unfold sum_over. induction l as [|x l IH]; intros H; simpl.
  - reflexivity.
  - rewrite (H x) by (left; reflexivity).
    rewrite IH by (intros y Hy; apply H; right; exact Hy). lra.
Qed.

Lemma sum_over_app {A : Type} (f : A -> Q) (l1 l2 : list A) :
  sum_over f (l1 ++ l2) == sum_over f l1 + sum_over f l2.
Proof.
  unfold sum_over. induction l1 as [|x l1 IH]; simpl.
  - lra.
  - rewrite IH. lra.
Qed.

Lemma cosine_similarity_sq_orthogonal (a b : list Q) :
  dot a b == 0 -> cosine_similarity_sq a b == 0.
Proof.
  intros H. unfold cosine_similarity_sq, Qdiv. rewrite H. simpl. ring.
Qed.

Lemma cosine_similarity_sq_self (v : list Q) :
  ~ dot v v == 0 -> cosine_similarity_sq v v == 1.
Proof.
  intros H. unfold cosine_similarity_sq. field. auto.
Qed.

(** ** The rational and the real cosine similarity *)

Module OverRealsFacts.
Import Reals Qreals Lra OverReals.
Local Open Scope R_scope.

Lemma Q2R_dot (a b : list Q) :
  Q2R (dot a b) = inner (map Q2R a) (map Q2R b).
Proof.
  unfold dot. revert b; induction a as [|x a IH]; intros [|y b]; simpl;
    try apply RMicromega.Q2R_0.
  rewrite Q2R_plus, Q2R_mult, IH. reflexivity.
Qed.

Lemma inner_self_nonneg (a : list R) : 0 <= inner a a.
Proof.
  induction a as [|x a IH]; simpl; [lra|].
  pose proof (Rle_0_sqr x) as Hx. unfold Rsqr in Hx. lra.
Qed.

(** The rational [cosine_similarity_sq] is the square of the real cosine
    similarity. *)
Lemma cosine_similarity_sq_real (a b : list Q) :
  Q2R (cosine_similarity_sq a b)
  = (cosine_similarity (map Q2R a) (map Q2R b)) ^ 2.
Proof.
  unfold cosine_similarity_sq, cosine_similarity, norm.
  pose proof (Q2R_dot a a) as Haa. pose proof (Q2R_dot b b) as Hbb.
  pose proof (Q2R_dot a b) as Hab.
  pose proof (inner_self_nonneg (map Q2R a)) as Na.
  pose proof (inner_self_nonneg (map Q2R b)) as Nb.
  set (A := inner (map Q2R a) (map Q2R a)) in *.
  set (B := inner (map Q2R b) (map Q2R b)) in *.
  set (C := inner (map Q2R a) (map Q2R b)) in *.
  destruct (Qeq_dec (dot a a * dot b b) 0) as [Hz|Hnz].
  - assert (HQ : ((dot a b) ^ 2 / (dot a a * dot b b) == 0)%Q).
    { unfold Qdiv. rewrite Hz. change (/ 0)%Q with 0%Q. ring. }
    rewrite (Qeq_eqR _ _ HQ), RMicromega.Q2R_0.
    assert (HAB : A * B = 0).
    { rewrite <- Haa, <- Hbb, <- Q2R_mult, (Qeq_eqR _ _ Hz).
      apply RMicromega.Q2R_0. }
    assert (Hs : sqrt A * sqrt B = 0).
    { destruct (Rmult_integral _ _ HAB) as [H|H]; rewrite H, sqrt_0; ring. }
    rewrite Hs. unfold Rdiv. rewrite Rinv_0. ring.
  - assert (HAB : A * B <> 0).
    { rewrite <- Haa, <- Hbb, <- Q2R_mult. intro H. apply Hnz.
      apply eqR_Qeq. rewrite H. symmetry. apply RMicromega.Q2R_0. }
    assert (HA : A <> 0) by (intro H; apply HAB; rewrite H; ring).
    assert (HB : B <> 0) by (intro H; apply HAB; rewrite H; ring).
    assert (HsA : sqrt A <> 0).
    { intro H. apply HA. apply sqrt_eq_0; [exact Na | exact H]. }
    assert (HsB : sqrt B <> 0).
    { intro H. apply HB. apply sqrt_eq_0; [exact Nb | exact H]. }
    rewrite Q2R_div by exact Hnz.
    rewrite Q2R_mult, Haa, Hbb.
    replace (Q2R (dot a b ^ 2)) with (C * C).
    2:{ rewrite <- Hab, <- Q2R_mult. apply Qeq_eqR. simpl. ring. }
    rewrite <- (sqrt_sqrt A Na) at 1. rewrite <- (sqrt_sqrt B Nb) at 1.
    field. split; assumption.
Qed.
End OverRealsFacts.

(** ** The forward functions *)

Section Forward.

Context {Ext : Type}.

(** C7.  [EnergyBasedGeneratorLoss.forward] returns [dgz] itself when the
    reduction is "none", the mean of its elements for "mean" and their sum
    for "sum"; both aggregates are the mean and the sum of the "none"
    result; on [1, 3, 5] with "mean" the loss is 3. *)
Theorem generator_forward_reduces
  (override : option (Override Ext)) (dgz : Tensor) :
  let forward r :=
    EnergyBasedGeneratorLoss_forward
      {| g_reduction := r; g_override_train_ops := override |} in
  forward ReduceNone dgz = Unreduced dgz
  /\ forward ReduceMean dgz = Scalar (tensor_sum dgz / numel dgz)
  /\ forward ReduceSum dgz = Scalar (tensor_sum dgz)
  /\ match forward ReduceNone dgz with
     | Unreduced t =>
         forward ReduceMean dgz = Scalar (tensor_mean t)
         /\ forward ReduceSum dgz = Scalar (tensor_sum t)
     | Scalar _ => False
     end
  /\ loss_eq (forward ReduceMean [1; 3; 5]) (Scalar 3).
Proof.
  cbv zeta.
  unfold EnergyBasedGeneratorLoss_forward, energy_based_generator_loss,
    reduce, tensor_mean; simpl.
  repeat split; reflexivity.
Qed.

(** C1.  For tensors of equal shape, [EnergyBasedDiscriminatorLoss.forward]
    is the configured reduction of the elementwise value
    [dx + max(0, margin - dgz)]; where every [dgz] is at least the margin it
    is the reduction of [dx] alone; the two worked examples give 10 and 3. *)
Theorem discriminator_forward_margin
  (override : option (Override Ext)) (dx dgz : Tensor) (m : Q) :
  List.length dx = List.length dgz ->
  let forward r m' :=
    EnergyBasedDiscriminatorLoss_forward
      {| d_reduction := r; margin := m'; d_override_train_ops := override |} in
  let e := zip_with (margin_energy m) dx dgz in
  (List.length e = List.length dx
   /\ forall i, (i < List.length dx)%nat ->
        nth i e 0 = nth i dx 0 + Qmax 0 (m - nth i dgz 0))
  /\ forward ReduceNone m dx dgz = Unreduced e
  /\ forward ReduceMean m dx dgz = Scalar (tensor_sum e / numel e)
  /\ forward ReduceSum m dx dgz = Scalar (tensor_sum e)
  /\ (Forall (fun g => m <= g) dgz ->
      loss_eq (forward ReduceMean m dx dgz) (Scalar (tensor_mean dx))
      /\ loss_eq (forward ReduceSum m dx dgz) (Scalar (tensor_sum dx)))
  /\ loss_eq (forward ReduceMean 10 [0; 0] [0; 0]) (Scalar 10)
  /\ loss_eq (forward ReduceMean 5 [2; 4] [10; 10]) (Scalar 3).
Proof.
  intros Hlen forward e.
  split; [split|].
  - apply zip_with_length; exact Hlen.
  - intros i Hi. unfold e. rewrite zip_with_nth by assumption. reflexivity.
  - repeat split; try reflexivity.
    + simpl. unfold tensor_mean, numel. fold e.
      assert (Hs : tensor_sum e == tensor_sum dx)
        by (apply tensor_sum_saturated; assumption).
      unfold e at 2. rewrite zip_with_length by exact Hlen.
      rewrite Hs. reflexivity.
    + simpl. apply tensor_sum_saturated; assumption.
Qed.

End Forward.

Lemma discriminator_forward_margin_witness :
  loss_eq
    (EnergyBasedDiscriminatorLoss_forward
       {| d_reduction := ReduceMean; margin := 5;
          d_override_train_ops := @None (Override nat) |}
       [2; 4] [10; 10])
    (Scalar (tensor_mean [2; 4])).
Proof.
  destruct (@discriminator_forward_margin nat None [2; 4] [10; 10] 5 eq_refl)
    as (_ & _ & _ & _ & Hsat & _).
  apply Hsat.
  repeat constructor; discriminate.
Defined.

Lemma sum_over_row_pairs (g : nat -> nat -> Q) (i : nat) (l : list nat) :
  sum_over (fun j => if Nat.eqb i j then 0 else g i j) l
  == sum_over (fun p => g (fst p) (snd p))
       (filter (fun p => negb (Nat.eqb (fst p) (snd p))) (map (pair i) l)).
Proof.
  unfold sum_over. induction l as [|j l IH]; simpl.
  - reflexivity.
  - destruct (Nat.eqb i j); simpl; rewrite IH; lra.
Qed.

Lemma sum_over_ordered_pairs (g : nat -> nat -> Q) (l1 l2 : list nat) :
  sum_over (fun i =>
    sum_over (fun j => if Nat.eqb i j then 0 else g i j) l2) l1
  == sum_over (fun p => g (fst p) (snd p))
       (filter (fun p => negb (Nat.eqb (fst p) (snd p))) (list_prod l1 l2)).
Proof.
  induction l1 as [|i l1 IH]; simpl.
  - reflexivity.
  - rewrite filter_app, sum_over_app, <- IH, <- sum_over_row_pairs.
    unfold sum_over. simpl. reflexivity.
Qed.

Lemma pair_sum_orthogonal (X : Batch) :
  (forall i j, (i < List.length X)%nat -> (j < List.length X)%nat -> i <> j ->
     dot (row X i) (row X j) == 0) ->
  pair_sum X == 0.
Proof.
  intros H. unfold pair_sum.
  apply sum_over_zero. intros i Hi.
  apply sum_over_zero. intros j Hj.
  apply in_seq in Hi. apply in_seq in Hj.
  destruct (Nat.eqb_spec i j) as [|Hne]; [reflexivity|].
  apply cosine_similarity_sq_orthogonal. apply H; lia.
Qed.

Section ForwardPT.

Context {Ext : Type}.

(** C6.  For a batch of [N >= 2] embedding vectors
    [EnergyBasedPullingAwayTerm.forward] is [pt_ratio] times
    [1/(N(N-1))] times the sum, over the ordered pairs [i <> j], of the
    squared cosine similarity of rows [i] and [j]; it does not depend on
    [dgz]; on two equal nonzero vectors it is [pt_ratio * 1], and on
    pairwise orthogonal vectors it is 0. *)
Theorem pulling_away_forward
  (override : option (Override Ext)) (ratio : Q) (dgz : Tensor)
  (d_hid : Batch) :
  (2 <= List.length d_hid)%nat ->
  let self := {| pt_ratio := ratio; pt_override_train_ops := override |} in
  let N := inject_Z (Z.of_nat (List.length d_hid)) in
  let idx := seq 0 (List.length d_hid) in
  let ordered_pairs :=
    filter (fun p => negb (Nat.eqb (fst p) (snd p))) (list_prod idx idx) in
  (forall dgz', EnergyBasedPullingAwayTerm_forward self dgz' d_hid
                = EnergyBasedPullingAwayTerm_forward self dgz d_hid)
  /\ EnergyBasedPullingAwayTerm_forward self dgz d_hid
     == ratio * ((1 / (N * (N - 1)))
                 * sum_over (fun p =>
                     cosine_similarity_sq (row d_hid (fst p))
                                          (row d_hid (snd p)))
                     ordered_pairs)
  /\ (forall v, ~ dot v v == 0 ->
        EnergyBasedPullingAwayTerm_forward self dgz [v; v] == ratio * 1)
  /\ ((forall i j, (i < List.length d_hid)%nat -> (j < List.length d_hid)%nat ->
         i <> j -> dot (row d_hid i) (row d_hid j) == 0) ->
      EnergyBasedPullingAwayTerm_forward self dgz d_hid == 0).
Proof.
  intros HN self N idx ordered_pairs.
  unfold EnergyBasedPullingAwayTerm_forward, energy_based_pulling_away_term.
  simpl pt_ratio.
  repeat split.
  - unfold pair_sum, batch_len. fold N idx.
    rewrite (sum_over_ordered_pairs
               (fun i j => cosine_similarity_sq (row d_hid i) (row d_hid j))).
    reflexivity.
  - intros v Hv.
    unfold pair_sum, batch_len, sum_over, row. simpl.
    rewrite (cosine_similarity_sq_self v Hv). field.
  - intros Horth. rewrite (pair_sum_orthogonal d_hid Horth). ring.
Qed.

End ForwardPT.

Lemma pulling_away_forward_witness :
  EnergyBasedPullingAwayTerm_forward
    {| pt_ratio := 1 # 10; pt_override_train_ops := @None (Override nat) |}
    [5; 6] [[3; 4]; [3; 4]] == (1 # 10) * 1
  /\ EnergyBasedPullingAwayTerm_forward
       {| pt_ratio := 1 # 10; pt_override_train_ops := @None (Override nat) |}
       [5; 6] [[1; 0]; [0; 1]] == 0.
Proof.
  split.
  - destruct (@pulling_away_forward nat None (1 # 10) [5; 6]
                [[3; 4]; [3; 4]] (le_n 2)) as (_ & _ & Hsame & _).
    apply Hsame. vm_compute. discriminate.
  - destruct (@pulling_away_forward nat None (1 # 10) [5; 6]
                [[1; 0]; [0; 1]] (le_n 2)) as (_ & _ & _ & Horth).
    apply Horth. intros [|[|i]] [|[|j]] Hi Hj Hne; simpl in *;
      try lia; reflexivity.
Defined.

(** ** The train-steps *)

Lemma flag_of_set_flag {Ext : Type} (d : Discriminator) (v : bool)
  (w : World Ext) :
  flag_of d (set_flag d v w) = v.
Proof.
  unfold flag_of, set_flag; simpl. rewrite Nat.eqb_refl. reflexivity.
Qed.

(** Runs a wrapped train-step once the result of the base class's
    train-step is known. *)
Ltac run_wrapped Hov Hae Hbase :=
  unfold EnergyBasedGeneratorLoss_train_ops,
    EnergyBasedDiscriminatorLoss_train_ops;
  rewrite Hov, Hae;
  unfold bind, call, ret, getattr_embeddings, setattr_embeddings,
    generator_args, base_discriminator_args in *; simpl;
  rewrite Hbase; simpl;
  rewrite <- !app_assoc; reflexivity.

Section TrainOps.

Context {Ext : Type}.
Variable env : Collaborators Ext.

(** The wrapped generator train-step, when the base train-step returns. *)
Lemma generator_train_ops_returns
  (self : EnergyBasedGeneratorLoss Ext) g d o dev n labels
  (m : Machine Ext) (loss : PyVal) (w2 : World Ext) :
  g_override_train_ops self = None ->
  is_autoencoding d = true ->
  generator_loss_train_ops env self (generator_args g d o dev n labels)
    (set_flag d false (world m)) = (Returns loss, w2) ->
  EnergyBasedGeneratorLoss_train_ops env self g d o dev n labels m
  = (Returns loss,
     {| world := set_flag d (flag_of d (world m)) w2;
        trace := trace m ++ [SetEmbeddings d false;
                             CallBaseTrainOps (generator_args g d o dev n labels);
                             SetEmbeddings d (flag_of d (world m))] |}).
Proof.
  intros Hov Hae Hbase. run_wrapped Hov Hae Hbase.
Qed.

(** The wrapped generator train-step, when the base train-step raises. *)
Lemma generator_train_ops_raises
  (self : EnergyBasedGeneratorLoss Ext) g d o dev n labels
  (m : Machine Ext) (msg : string) (w2 : World Ext) :
  g_override_train_ops self = None ->
  is_autoencoding d = true ->
  generator_loss_train_ops env self (generator_args g d o dev n labels)
    (set_flag d false (world m)) = (Raises msg, w2) ->
  EnergyBasedGeneratorLoss_train_ops env self g d o dev n labels m
  = (Raises msg,
     {| world := w2;
        trace := trace m ++ [SetEmbeddings d false;
                             CallBaseTrainOps (generator_args g d o dev n labels)] |}).
Proof.
  intros Hov Hae Hbase. run_wrapped Hov Hae Hbase.
Qed.

Lemma discriminator_train_ops_returns
  (self : EnergyBasedDiscriminatorLoss Ext) g d o real dev n labels
  (m : Machine Ext) (loss : PyVal) (w2 : World Ext) :
  d_override_train_ops self = None ->
  is_autoencoding d = true ->
  discriminator_loss_train_ops env self
    (base_discriminator_args g d o real dev labels)
    (set_flag d false (world m)) = (Returns loss, w2) ->
  EnergyBasedDiscriminatorLoss_train_ops env self g d o real dev n labels m
  = (Returns loss,
     {| world := set_flag d (flag_of d (world m)) w2;
        trace := trace m
                 ++ [SetEmbeddings d false;
                     CallBaseTrainOps
                       (base_discriminator_args g d o real dev labels);
                     SetEmbeddings d (flag_of d (world m))] |}).
Proof.
  intros Hov Hae Hbase. run_wrapped Hov Hae Hbase.
Qed.

Lemma discriminator_train_ops_raises
  (self : EnergyBasedDiscriminatorLoss Ext) g d o real dev n labels
  (m : Machine Ext) (msg : string) (w2 : World Ext) :
  d_override_train_ops self = None ->
  is_autoencoding d = true ->
  discriminator_loss_train_ops env self
    (base_discriminator_args g d o real dev labels)
    (set_flag d false (world m)) = (Raises msg, w2) ->
  EnergyBasedDiscriminatorLoss_train_ops env self g d o real dev n labels m
  = (Raises msg,
     {| world := w2;
        trace := trace m
                 ++ [SetEmbeddings d false;
                     CallBaseTrainOps
                       (base_discriminator_args g d o real dev labels)] |}).
Proof.
  intros Hov Hae Hbase. run_wrapped Hov Hae Hbase.
Qed.

(** C4.  Without an override, on an autoencoding discriminator and when the
    base class's train-step returns: the flag is read, written [False]
    before the base train-step runs (which therefore sees it disabled),
    and written back afterwards, so that on return it has exactly the value
    it had before the call, whatever that value was. *)
Theorem embeddings_flag_round_trip :
  (forall (self : EnergyBasedGeneratorLoss Ext) g d o dev n labels m loss w2,
     g_override_train_ops self = None ->
     is_autoencoding d = true ->
     generator_loss_train_ops env self (generator_args g d o dev n labels)
       (set_flag d false (world m)) = (Returns loss, w2) ->
     let result :=
       EnergyBasedGeneratorLoss_train_ops env self g d o dev n labels m in
     flag_of d (set_flag d false (world m)) = false
     /\ fst result = Returns loss
     /\ emits (EnergyBasedGeneratorLoss_train_ops env self g d o dev n labels)
          m [SetEmbeddings d false;
             CallBaseTrainOps (generator_args g d o dev n labels);
             SetEmbeddings d (flag_of d (world m))]
     /\ flag_of d (world (snd result)) = flag_of d (world m))
  /\
  (forall (self : EnergyBasedDiscriminatorLoss Ext) g d o real dev n labels
          m loss w2,
     d_override_train_ops self = None ->
     is_autoencoding d = true ->
     discriminator_loss_train_ops env self
       (base_discriminator_args g d o real dev labels)
       (set_flag d false (world m)) = (Returns loss, w2) ->
     let result :=
       EnergyBasedDiscriminatorLoss_train_ops env self g d o real dev n
         labels m in
     flag_of d (set_flag d false (world m)) = false
     /\ fst result = Returns loss
     /\ emits (EnergyBasedDiscriminatorLoss_train_ops env self g d o real
                 dev n labels)
          m [SetEmbeddings d false;
             CallBaseTrainOps (base_discriminator_args g d o real dev labels);
             SetEmbeddings d (flag_of d (world m))]
     /\ flag_of d (world (snd result)) = flag_of d (world m)).
Proof.
  split.
  - intros self g d o dev n labels m loss w2 Hov Hae Hbase result.
    unfold result, emits.
    rewrite (generator_train_ops_returns self g d o dev n labels m loss w2
               Hov Hae Hbase); simpl.
    repeat split; apply flag_of_set_flag.
  - intros self g d o real dev n labels m loss w2 Hov Hae Hbase result.
    unfold result, emits.
    rewrite (discriminator_train_ops_returns self g d o real dev n labels m
               loss w2 Hov Hae Hbase); simpl.
    repeat split; apply flag_of_set_flag.
Qed.

(** C3, as the code has it.  Without an override and on an autoencoding
    discriminator, the flag has its value of before the call whenever the
    base class's train-step returns; when that train-step raises, the
    exception goes through, nothing is written back, and the store is the
    one the base train-step left. *)
Theorem embeddings_flag_on_exit :
  (forall (self : EnergyBasedGeneratorLoss Ext) g d o dev n labels m,
     g_override_train_ops self = None ->
     is_autoencoding d = true ->
     let inner :=
       generator_loss_train_ops env self (generator_args g d o dev n labels)
         (set_flag d false (world m)) in
     let result :=
       EnergyBasedGeneratorLoss_train_ops env self g d o dev n labels m in
     (forall loss w2, inner = (Returns loss, w2) ->
        fst result = Returns loss
        /\ flag_of d (world (snd result)) = flag_of d (world m))
     /\ (forall msg w2, inner = (Raises msg, w2) ->
           fst result = Raises msg
           /\ world (snd result) = w2
           /\ emits (EnergyBasedGeneratorLoss_train_ops env self g d o dev n
                       labels)
                m [SetEmbeddings d false;
                   CallBaseTrainOps (generator_args g d o dev n labels)]))
  /\
  (forall (self : EnergyBasedDiscriminatorLoss Ext) g d o real dev n labels m,
     d_override_train_ops self = None ->
     is_autoencoding d = true ->
     let inner :=
       discriminator_loss_train_ops env self
         (base_discriminator_args g d o real dev labels)
         (set_flag d false (world m)) in
     let result :=
       EnergyBasedDiscriminatorLoss_train_ops env self g d o real dev n
         labels m in
     (forall loss w2, inner = (Returns loss, w2) ->
        fst result = Returns loss
        /\ flag_of d (world (snd result)) = flag_of d (world m))
     /\ (forall msg w2, inner = (Raises msg, w2) ->
           fst result = Raises msg
           /\ world (snd result) = w2
           /\ emits (EnergyBasedDiscriminatorLoss_train_ops env self g d o
                       real dev n labels)
                m [SetEmbeddings d false;
                   CallBaseTrainOps
                     (base_discriminator_args g d o real dev labels)])).
Proof.
  split.
  - intros self g d o dev n labels m Hov Hae inner result. split.
    + intros loss w2 Hin. unfold result.
      rewrite (generator_train_ops_returns self g d o dev n labels m loss w2
                 Hov Hae Hin); simpl.
      split; [reflexivity | apply flag_of_set_flag].
    + intros msg w2 Hin. unfold result, emits.
      rewrite (generator_train_ops_raises self g d o dev n labels m msg w2
                 Hov Hae Hin); simpl.
      repeat split.
  - intros self g d o real dev n labels m Hov Hae inner result. split.
    + intros loss w2 Hin. unfold result.
      rewrite (discriminator_train_ops_returns self g d o real dev n labels m
                 loss w2 Hov Hae Hin); simpl.
      split; [reflexivity | apply flag_of_set_flag].
    + intros msg w2 Hin. unfold result, emits.
      rewrite (discriminator_train_ops_raises self g d o real dev n labels m
                 msg w2 Hov Hae Hin); simpl.
      repeat split.
Qed.

(** What each [train_ops] hands to an override.  Each does nothing but
    call it and hand back its result.  The two generator-side losses pass
    the arguments they received; the discriminator loss passes itself
    first and leaves [batch_size] out. *)
Theorem override_delegation :
  (forall (self : EnergyBasedGeneratorLoss Ext) override g d o dev n labels,
     g_override_train_ops self = Some override ->
     delegates_to override (generator_args g d o dev n labels)
       (EnergyBasedGeneratorLoss_train_ops env self g d o dev n labels))
  /\
  (forall (self : EnergyBasedPullingAwayTerm Ext) override g d o dev n labels,
     pt_override_train_ops self = Some override ->
     delegates_to override (generator_args g d o dev n labels)
       (EnergyBasedPullingAwayTerm_train_ops env self g d o dev n labels))
  /\
  (forall (self : EnergyBasedDiscriminatorLoss Ext) override g d o real dev n
          labels,
     d_override_train_ops self = Some override ->
     delegates_to override
       [py_self self; PyGenerator g; PyDiscriminator d; PyOptimizer o;
        PyTensor real; PyDevice dev; labels]
       (EnergyBasedDiscriminatorLoss_train_ops env self g d o real dev n
          labels)).
Proof.
  repeat split; intros; intro m.
  - unfold EnergyBasedGeneratorLoss_train_ops, generator_args, call.
    rewrite H. destruct (override _ (world m)); reflexivity.
  - unfold EnergyBasedPullingAwayTerm_train_ops, generator_args, call.
    rewrite H. destruct (override _ (world m)); reflexivity.
  - unfold EnergyBasedDiscriminatorLoss_train_ops, call.
    rewrite H. destruct (override _ (world m)); reflexivity.
Qed.

(** *** Computations that write no attribute *)

Lemma no_write_app (l1 l2 : list Event) :
  no_write l1 -> no_write l2 -> no_write (l1 ++ l2).
Proof.
  unfold no_write. intros H1 H2. rewrite forallb_app, H1, H2. reflexivity.
Qed.

Lemma writes_nothing_ret {A : Type} (a : A) : writes_nothing (@ret Ext A a).
Proof.
  intros m. exists []. split; [unfold emits; simpl; now rewrite app_nil_r|].
  reflexivity.
Qed.

Lemma writes_nothing_raise {A : Type} (msg : string) :
  writes_nothing (@raise Ext A msg).
Proof.
  intros m. exists []. split; [unfold emits; simpl; now rewrite app_nil_r|].
  reflexivity.
Qed.

Lemma writes_nothing_require (cond : bool) (msg : string) :
  writes_nothing (@require Ext cond msg).
Proof.
  destruct cond; [apply writes_nothing_ret | apply writes_nothing_raise].
Qed.

Lemma writes_nothing_getattr (d : Discriminator) :
  writes_nothing (@getattr_embeddings Ext d).
Proof.
  intros m. exists []. split; [unfold emits; simpl; now rewrite app_nil_r|].
  reflexivity.
Qed.

Lemma writes_nothing_unpack (out : DiscOutput) :
  writes_nothing (@unpack_pair Ext out).
Proof.
  destruct out;
    [apply writes_nothing_raise | apply writes_nothing_ret
    | apply writes_nothing_ret].
Qed.

Lemma writes_nothing_call {A : Type} (e : Event) (f : Effect Ext A) :
  is_write e = false -> writes_nothing (call e f).
Proof.
  intros He m. exists [e]. split.
  - unfold emits, call. destruct (f (world m)); reflexivity.
  - unfold no_write; simpl. rewrite He. reflexivity.
Qed.

Lemma writes_nothing_bind {A B : Type} (c : M Ext A) (k : A -> M Ext B) :
  writes_nothing c -> (forall a, writes_nothing (k a)) ->
  writes_nothing (bind c k).
Proof.
  intros Hc Hk m.
  destruct (Hc m) as (ev1 & E1 & N1). unfold emits, bind in *.
  destruct (c m) as [[a|msg] m1]; simpl in E1.
  - destruct (Hk a m1) as (ev2 & E2 & N2).
    exists (ev1 ++ ev2). split; [|apply no_write_app; assumption].
    rewrite E2, E1, app_assoc. reflexivity.
  - exists ev1. split; assumption.
Qed.

(** *** Computations that keep the flag *)

Lemma preserves_flag_ret {A : Type} d (a : A) : preserves_flag d (@ret Ext A a).
Proof. intros m. reflexivity. Qed.

Lemma preserves_flag_raise {A : Type} d (msg : string) :
  preserves_flag d (@raise Ext A msg).
Proof. intros m. reflexivity. Qed.

Lemma preserves_flag_require d (cond : bool) (msg : string) :
  preserves_flag d (@require Ext cond msg).
Proof.
  destruct cond; [apply preserves_flag_ret | apply preserves_flag_raise].
Qed.

Lemma preserves_flag_getattr d d' :
  preserves_flag d (@getattr_embeddings Ext d').
Proof. intros m. reflexivity. Qed.

Lemma preserves_flag_unpack d (out : DiscOutput) :
  preserves_flag d (@unpack_pair Ext out).
Proof.
  destruct out;
    [apply preserves_flag_raise | apply preserves_flag_ret
    | apply preserves_flag_ret].
Qed.

Lemma preserves_flag_call {A : Type} d (e : Event) (f : Effect Ext A) :
  keeps_flag d f -> preserves_flag d (call e f).
Proof.
  intros Hf m. unfold call. specialize (Hf (world m)).
  destruct (f (world m)); exact Hf.
Qed.

Lemma preserves_flag_bind {A B : Type} d (c : M Ext A) (k : A -> M Ext B) :
  preserves_flag d c -> (forall a, preserves_flag d (k a)) ->
  preserves_flag d (bind c k).
Proof.
  intros Hc Hk m. unfold bind. specialize (Hc m).
  destruct (c m) as [[a|msg] m1]; simpl in *.
  - rewrite (Hk a m1). exact Hc.
  - exact Hc.
Qed.

Create HintDb effects.
#[local] Hint Resolve writes_nothing_ret writes_nothing_raise
  writes_nothing_require writes_nothing_getattr writes_nothing_unpack
  preserves_flag_ret preserves_flag_raise preserves_flag_require
  preserves_flag_getattr preserves_flag_unpack : effects.

(** Walks down a sequence of binds, leaving the calls to [auto]. *)
Ltac walk :=
  repeat first
    [ apply writes_nothing_bind; [|intros ?]
    | apply preserves_flag_bind; [|intros ?]
    | apply writes_nothing_call; reflexivity
    | apply preserves_flag_call
    | solve [auto with effects] ].

Lemma pulling_away_writes_nothing
  (self : EnergyBasedPullingAwayTerm Ext) g d o dev n labels :
  writes_nothing (EnergyBasedPullingAwayTerm_train_ops env self g d o dev n
                    labels).
Proof.
  unfold EnergyBasedPullingAwayTerm_train_ops.
  destruct (pt_override_train_ops self) as [override|]; walk.
Qed.

Lemma pulling_away_preserves_flag
  (self : EnergyBasedPullingAwayTerm Ext) g d o dev n labels d' :
  collaborators_keep_flag env d' ->
  (forall override args,
     pt_override_train_ops self = Some override ->
     keeps_flag d' (override args)) ->
  preserves_flag d' (EnergyBasedPullingAwayTerm_train_ops env self g d o dev
                       n labels).
Proof.
  intros (Hr & Hz & Hg & Hd & Hb & Hs) Hov.
  unfold EnergyBasedPullingAwayTerm_train_ops.
  destruct (pt_override_train_ops self) as [override|]; walk; auto.
Qed.

(** *** The three checks of the pulling-away term *)

Lemma pulling_away_rejects_plain_discriminator
  (self : EnergyBasedPullingAwayTerm Ext) g d o dev n labels m :
  pt_override_train_ops self = None ->
  is_autoencoding d = false ->
  EnergyBasedPullingAwayTerm_train_ops env self g d o dev n labels m
  = (Raises MSG_AUTOENCODER, m).
Proof.
  intros Hov Hae. unfold EnergyBasedPullingAwayTerm_train_ops.
  rewrite Hov, Hae. reflexivity.
Qed.

Lemma pulling_away_rejects_labels
  (self : EnergyBasedPullingAwayTerm Ext) g d o dev n labels m :
  pt_override_train_ops self = None ->
  is_autoencoding d = true ->
  label_type g <> "none"%string ->
  EnergyBasedPullingAwayTerm_train_ops env self g d o dev n labels m
  = (Raises MSG_LABELS, m).
Proof.
  intros Hov Hae Hlab. apply String.eqb_neq in Hlab.
  unfold EnergyBasedPullingAwayTerm_train_ops.
  rewrite Hov, Hae, Hlab. reflexivity.
Qed.

Lemma pulling_away_rejects_disabled_embeddings
  (self : EnergyBasedPullingAwayTerm Ext) g d o dev n labels m :
  pt_override_train_ops self = None ->
  is_autoencoding d = true ->
  label_type g = "none"%string ->
  flag_of d (world m) = false ->
  EnergyBasedPullingAwayTerm_train_ops env self g d o dev n labels m
  = (Raises MSG_EMBEDDINGS, m).
Proof.
  intros Hov Hae Hlab Hflag. apply String.eqb_eq in Hlab.
  unfold EnergyBasedPullingAwayTerm_train_ops.
  rewrite Hov, Hae, Hlab.
  unfold bind, require, getattr_embeddings, ret, raise; simpl.
  unfold flag_of in Hflag. rewrite Hflag. reflexivity.
Qed.

(** C10.  The checks run in the order: autoencoding discriminator,
    [generator.label_type == "none"], [discriminator.embeddings].  The
    error raised is the one of the first check that fails, and with a
    discriminator that is no autoencoder the outcome does not depend on the
    generator at all. *)
Theorem pulling_away_check_order
  (self : EnergyBasedPullingAwayTerm Ext) g d o dev n labels m :
  pt_override_train_ops self = None ->
  let run g' :=
    EnergyBasedPullingAwayTerm_train_ops env self g' d o dev n labels m in
  (is_autoencoding d = false ->
     forall g', run g' = (Raises MSG_AUTOENCODER, m))
  /\ (is_autoencoding d = true -> label_type g <> "none"%string ->
        run g = (Raises MSG_LABELS, m))
  /\ (is_autoencoding d = true -> label_type g = "none"%string ->
        flag_of d (world m) = false ->
        run g = (Raises MSG_EMBEDDINGS, m))
  /\ MSG_AUTOENCODER <> MSG_LABELS
  /\ MSG_AUTOENCODER <> MSG_EMBEDDINGS
  /\ MSG_LABELS <> MSG_EMBEDDINGS.
Proof.
  intros Hov run. unfold run.
  repeat split; try discriminate.
  - intros Hae g'. apply pulling_away_rejects_plain_discriminator; assumption.
  - intros Hae Hlab. apply pulling_away_rejects_labels; assumption.
  - intros Hae Hlab Hflag.
    apply pulling_away_rejects_disabled_embeddings; assumption.
Qed.

(** C5.  Without an override, a violated precondition makes [train_ops]
    raise and leaves the store and the trace untouched: no noise is
    sampled, no gradient zeroed, no optimizer stepped.  When the three
    preconditions hold, no check raises: the run goes on to sample the
    noise. *)
Theorem pulling_away_preconditions
  (self : EnergyBasedPullingAwayTerm Ext) g d o dev n labels m :
  pt_override_train_ops self = None ->
  let train_ops :=
    EnergyBasedPullingAwayTerm_train_ops env self g d o dev n labels in
  (is_autoencoding d = false \/ label_type g <> "none"%string
   \/ flag_of d (world m) = false ->
   exists msg, train_ops m = (Raises msg, m))
  /\ (is_autoencoding d = true -> label_type g = "none"%string ->
      flag_of d (world m) = true ->
      exists rest,
        emits train_ops m (CallRandn n (encoding_dims g) dev :: rest)).
Proof.
  intros Hov train_ops. unfold train_ops. split.
  - intros Hbad.
    destruct (is_autoencoding d) eqn:Hae.
    + destruct (string_dec (label_type g) "none") as [Hlab|Hlab].
      * destruct (flag_of d (world m)) eqn:Hflag.
        -- destruct Hbad as [H|[H|H]]; [discriminate | contradiction
                                       | discriminate].
        -- eexists.
           apply pulling_away_rejects_disabled_embeddings; assumption.
      * eexists. apply pulling_away_rejects_labels; assumption.
    + eexists. apply pulling_away_rejects_plain_discriminator; assumption.
  - intros Hae Hlab Hflag. apply String.eqb_eq in Hlab.
    unfold emits, EnergyBasedPullingAwayTerm_train_ops.
    rewrite Hov, Hae, Hlab.
    unfold flag_of in Hflag.
    unfold require at 1 2. unfold bind at 1 2 3 4.
    unfold ret at 1 2. unfold getattr_embeddings at 1.
    rewrite Hflag. unfold require at 1. unfold ret at 1.
    match goal with
    | |- context [bind (call ?e ?f) ?k] =>
        assert (Hk : forall a, writes_nothing (k a)) by (intros a; walk);
        unfold bind at 1, call at 1;
        destruct (f (world m)) as [[noise|msg] w1]
    end.
    + destruct (Hk noise {| world := w1; trace := trace m ++ [CallRandn n (encoding_dims g) dev] |})
        as (rest & E & _).
      exists rest. unfold emits in E. rewrite E; simpl.
      rewrite <- app_assoc. reflexivity.
    + exists []. reflexivity.
Qed.

(** C8.  With the preconditions met and every collaborator returning, the
    default [train_ops] of the pulling-away term samples the noise of shape
    [(batch_size, generator.encoding_dims)], zeroes the gradient, runs the
    generator on the noise, runs the discriminator on the fake batch to get
    (hidden, score), computes [forward(score, hidden)], back-propagates it,
    steps the optimizer once, and returns the loss as a plain number: these
    calls, in this order, and no other. *)
Theorem pulling_away_train_ops_steps
  (self : EnergyBasedPullingAwayTerm Ext) g d o dev n labels m
  (noise fake d_hid : Batch) (dgz : Tensor) (w1 w2 w3 w4 w5 w6 : World Ext) :
  pt_override_train_ops self = None ->
  is_autoencoding d = true ->
  label_type g = "none"%string ->
  flag_of d (world m) = true ->
  let loss := EnergyBasedPullingAwayTerm_forward self dgz d_hid in
  torch_randn env n (encoding_dims g) dev (world m) = (Returns noise, w1) ->
  zero_grad env o w1 = (Returns tt, w2) ->
  generator_forward env g noise w2 = (Returns fake, w3) ->
  discriminator_forward env d fake w3
    = (Returns (HiddenAndScore d_hid dgz), w4) ->
  backward env loss w4 = (Returns tt, w5) ->
  optimizer_step env o w5 = (Returns tt, w6) ->
  EnergyBasedPullingAwayTerm_train_ops env self g d o dev n labels m
  = (Returns (PyFloat loss),
     {| world := w6;
        trace := trace m ++ [CallRandn n (encoding_dims g) dev;
                             CallZeroGrad o;
                             CallGenerator g noise;
                             CallDiscriminator d fake;
                             CallBackward loss;
                             CallStep o] |}).
Proof.
  intros Hov Hae Hlab Hflag loss Hrandn Hzero Hgen Hdisc Hback Hstep.
  apply String.eqb_eq in Hlab. unfold flag_of in Hflag.
  unfold EnergyBasedPullingAwayTerm_train_ops.
  rewrite Hov, Hae, Hlab.
  unfold bind, call, require, getattr_embeddings, unpack_pair, ret; simpl.
  rewrite Hflag, Hrandn; simpl.
  rewrite Hzero; simpl.
  rewrite Hgen; simpl.
  rewrite Hdisc; simpl.
  fold loss. rewrite Hback; simpl.
  rewrite Hstep; simpl.
  rewrite <- !app_assoc. reflexivity.
Qed.

(** C9.  [EnergyBasedPullingAwayTerm.train_ops] contains no write of the
    [embeddings] attribute: on every path, with or without an override,
    returning or raising, the events of the call include no
    [SetEmbeddings]; and as long as the collaborators it calls keep the
    flag, the flag after the call is the flag before it. *)
Theorem pulling_away_never_writes_flag
  (self : EnergyBasedPullingAwayTerm Ext) g d o dev n labels m :
  let train_ops :=
    EnergyBasedPullingAwayTerm_train_ops env self g d o dev n labels in
  (exists events, emits train_ops m events /\ no_write events)
  /\ (collaborators_keep_flag env d ->
      (forall override args,
         pt_override_train_ops self = Some override ->
         keeps_flag d (override args)) ->
      flag_of d (world (snd (train_ops m))) = flag_of d (world m)).
Proof.
  intros train_ops. split.
  - apply pulling_away_writes_nothing.
  - intros Henv Hov. apply pulling_away_preserves_flag; assumption.
Qed.

End TrainOps.

(** ** The statements at work on the concrete collaborators *)

Module Runs.

Import Fixture.

Lemma healthy_keeps_flag (d : Discriminator) :
  collaborators_keep_flag healthy d.
Proof.
  repeat split; intros; intro w; simpl; try reflexivity.
  unfold discriminate.
  destruct (is_autoencoding _ && embeddings w _)%bool; reflexivity.
Qed.

Lemma embeddings_flag_round_trip_witness :
  flag_of autoencoder
    (world (snd (EnergyBasedGeneratorLoss_train_ops healthy generator_loss
                   mnist_generator autoencoder adam cpu 2 PyNone
                   (start all_enabled))))
  = flag_of autoencoder all_enabled
  /\ flag_of autoencoder
       (world (snd (EnergyBasedDiscriminatorLoss_train_ops healthy
                      discriminator_loss mnist_generator autoencoder adam
                      real_batch cpu 2 PyNone (start all_disabled))))
     = flag_of autoencoder all_disabled.
Proof.
  destruct (embeddings_flag_round_trip healthy) as [HG HD]. split.
  - destruct (HG generator_loss mnist_generator autoencoder adam cpu 2%Z
                PyNone (start all_enabled) (PyFloat 0)
                (count_step (set_flag autoencoder false all_enabled))
                eq_refl eq_refl eq_refl) as (_ & _ & _ & H).
    exact H.
  - destruct (HD discriminator_loss mnist_generator autoencoder adam
                real_batch cpu 2%Z PyNone (start all_disabled) (PyFloat 0)
                (count_step (set_flag autoencoder false all_disabled))
                eq_refl eq_refl eq_refl) as (_ & _ & _ & H).
    exact H.
Defined.

(** C3 fails on the code: the base train-step raises while the flag of an
    autoencoding discriminator is enabled; after the call the flag is
    disabled, for the generator loss and for the discriminator loss. *)
Lemma embeddings_flag_stuck_after_failure :
  let after_g :=
    snd (EnergyBasedGeneratorLoss_train_ops crashing generator_loss
           mnist_generator autoencoder adam cpu 2 PyNone
           (start all_enabled)) in
  let after_d :=
    snd (EnergyBasedDiscriminatorLoss_train_ops crashing discriminator_loss
           mnist_generator autoencoder adam real_batch cpu 2 PyNone
           (start all_enabled)) in
  flag_of autoencoder all_enabled = true
  /\ flag_of autoencoder (world after_g) = false
  /\ flag_of autoencoder (world after_d) = false
  /\ flag_of autoencoder (world after_g) <> flag_of autoencoder all_enabled
  /\ flag_of autoencoder (world after_d) <> flag_of autoencoder all_enabled.
Proof.
  cbv. repeat split; discriminate.
Qed.

Lemma embeddings_flag_on_exit_witness :
  let result :=
    EnergyBasedGeneratorLoss_train_ops crashing generator_loss
      mnist_generator autoencoder adam cpu 2 PyNone (start all_enabled) in
  fst result = Raises "CUDA out of memory"%string
  /\ world (snd result) = set_flag autoencoder false all_enabled.
Proof.
  destruct (embeddings_flag_on_exit crashing) as [HG _].
  destruct (HG generator_loss mnist_generator autoencoder adam cpu 2%Z PyNone
              (start all_enabled) eq_refl eq_refl) as [_ Hraise].
  destruct (Hraise "CUDA out of memory"%string
              (set_flag autoencoder false all_enabled) eq_refl)
    as (H1 & H2 & _).
  split; assumption.
Defined.

(** The override of the discriminator loss is not called with the
    arguments [train_ops] received: its first argument is the loss object,
    not the generator. *)
Lemma discriminator_override_gets_other_arguments :
  ~ delegates_to first_argument
      (discriminator_args mnist_generator autoencoder adam real_batch cpu 2
         PyNone)
      (EnergyBasedDiscriminatorLoss_train_ops healthy
         overridden_discriminator_loss mnist_generator autoencoder adam
         real_batch cpu 2 PyNone).
Proof.
  intros H. specialize (H (start all_enabled)).
  cbv in H. discriminate H.
Qed.

(** C2.  The claim does not hold of
    [EnergyBasedDiscriminatorLoss.train_ops].  Called with batch size 2 and
    an override that has [train_ops]'s own parameters and hands back its
    [batch_size], it calls the override with the loss object in front and
    without the batch size: the override's [batch_size] is bound to the
    device, and ["cpu"] comes back.  On the arguments [train_ops] received
    the same override yields 2, and so does the override of the generator
    loss, which is given its arguments as they came. *)
Theorem discriminator_override_misbinds_batch_size :
  let received :=
    discriminator_args mnist_generator autoencoder adam real_batch cpu 2
      PyNone in
  EnergyBasedDiscriminatorLoss_train_ops healthy
    batch_size_reading_discriminator_loss mnist_generator autoencoder adam
    real_batch cpu 2 PyNone (start all_enabled)
  = (Returns (PyDevice cpu),
     {| world := all_enabled;
        trace := [CallOverride
                    [PyLossObject ReduceMean 80; PyGenerator mnist_generator;
                     PyDiscriminator autoencoder; PyOptimizer adam;
                     PyTensor real_batch; PyDevice cpu; PyNone]] |})
  /\ fst (batch_size_of_discriminator_step received all_enabled)
     = Returns (PyInt 2)
  /\ fst (EnergyBasedGeneratorLoss_train_ops healthy
            batch_size_reading_generator_loss mnist_generator autoencoder
            adam cpu 2 PyNone (start all_enabled))
     = Returns (PyInt 2).
Proof.
  repeat split.
Qed.

Lemma override_delegation_witness :
  delegates_to first_argument
    (generator_args mnist_generator autoencoder adam cpu 2 PyNone)
    (EnergyBasedGeneratorLoss_train_ops healthy
       {| g_reduction := ReduceMean;
          g_override_train_ops := Some first_argument |}
       mnist_generator autoencoder adam cpu 2 PyNone)
  /\ delegates_to first_argument
       (generator_args mnist_generator autoencoder adam cpu 2 PyNone)
       (EnergyBasedPullingAwayTerm_train_ops healthy
          {| pt_ratio := 1 # 10;
             pt_override_train_ops := Some first_argument |}
          mnist_generator autoencoder adam cpu 2 PyNone)
  /\ delegates_to first_argument
       [py_self overridden_discriminator_loss; PyGenerator mnist_generator;
        PyDiscriminator autoencoder; PyOptimizer adam; PyTensor real_batch;
        PyDevice cpu; PyNone]
       (EnergyBasedDiscriminatorLoss_train_ops healthy
          overridden_discriminator_loss mnist_generator autoencoder adam
          real_batch cpu 2 PyNone).
Proof.
  destruct (override_delegation healthy) as (HG & HP & HD).
  split; [|split].
  - apply HG. reflexivity.
  - apply HP. reflexivity.
  - apply HD. reflexivity.
Defined.

Lemma pulling_away_check_order_witness :
  EnergyBasedPullingAwayTerm_train_ops healthy pulling_away
    conditional_generator dcgan_discriminator adam cpu 2 PyNone
    (start all_disabled)
  = (Raises MSG_AUTOENCODER, start all_disabled)
  /\ EnergyBasedPullingAwayTerm_train_ops healthy pulling_away
       conditional_generator autoencoder adam cpu 2 PyNone
       (start all_disabled)
     = (Raises MSG_LABELS, start all_disabled)
  /\ EnergyBasedPullingAwayTerm_train_ops healthy pulling_away
       mnist_generator autoencoder adam cpu 2 PyNone (start all_disabled)
     = (Raises MSG_EMBEDDINGS, start all_disabled).
Proof.
  split; [|split].
  - destruct (pulling_away_check_order healthy pulling_away
                conditional_generator dcgan_discriminator adam cpu 2%Z PyNone
                (start all_disabled) eq_refl) as (H & _).
    apply H. reflexivity.
  - destruct (pulling_away_check_order healthy pulling_away
                conditional_generator autoencoder adam cpu 2%Z PyNone
                (start all_disabled) eq_refl) as (_ & H & _).
    apply H; [reflexivity | discriminate].
  - destruct (pulling_away_check_order healthy pulling_away
                mnist_generator autoencoder adam cpu 2%Z PyNone
                (start all_disabled) eq_refl) as (_ & _ & H & _).
    apply H; reflexivity.
Defined.

Lemma pulling_away_preconditions_witness :
  (exists msg,
     EnergyBasedPullingAwayTerm_train_ops healthy pulling_away
       mnist_generator dcgan_discriminator adam cpu 2 PyNone
       (start all_enabled)
     = (Raises msg, start all_enabled))
  /\ (exists rest,
        emits (EnergyBasedPullingAwayTerm_train_ops healthy pulling_away
                 mnist_generator autoencoder adam cpu 2 PyNone)
          (start all_enabled) (CallRandn 2 2 cpu :: rest)).
Proof.
  split.
  - destruct (pulling_away_preconditions healthy pulling_away
                mnist_generator dcgan_discriminator adam cpu 2%Z PyNone
                (start all_enabled) eq_refl) as (H & _).
    apply H. left. reflexivity.
  - destruct (pulling_away_preconditions healthy pulling_away
                mnist_generator autoencoder adam cpu 2%Z PyNone
                (start all_enabled) eq_refl) as (_ & H).
    apply H; reflexivity.
Defined.

Lemma pulling_away_train_ops_steps_witness :
  let loss :=
    EnergyBasedPullingAwayTerm_forward pulling_away [1; 1] [[1; 0]; [0; 1]] in
  EnergyBasedPullingAwayTerm_train_ops healthy pulling_away mnist_generator
    autoencoder adam cpu 2 PyNone (start all_enabled)
  = (Returns (PyFloat loss),
     {| world := count_step all_enabled;
        trace := [CallRandn 2 2 cpu; CallZeroGrad adam;
                  CallGenerator mnist_generator [[1; 0]; [0; 1]];
                  CallDiscriminator autoencoder [[1; 0]; [0; 1]];
                  CallBackward loss; CallStep adam] |}).
Proof.
  exact (pulling_away_train_ops_steps healthy pulling_away mnist_generator
           autoencoder adam cpu 2%Z PyNone (start all_enabled)
           [[1; 0]; [0; 1]] [[1; 0]; [0; 1]] [[1; 0]; [0; 1]]
           (scores [[1; 0]; [0; 1]])
           all_enabled all_enabled all_enabled all_enabled all_enabled
           (count_step all_enabled)
           eq_refl eq_refl eq_refl eq_refl
           eq_refl eq_refl eq_refl eq_refl eq_refl eq_refl).
Defined.

Lemma pulling_away_never_writes_flag_witness :
  flag_of autoencoder
    (world (snd (EnergyBasedPullingAwayTerm_train_ops healthy pulling_away
                   mnist_generator autoencoder adam cpu 2 PyNone
                   (start all_enabled))))
  = flag_of autoencoder all_enabled.
Proof.
  destruct (pulling_away_never_writes_flag healthy pulling_away
              mnist_generator autoencoder adam cpu 2%Z PyNone
              (start all_enabled)) as [_ H].
  apply H.
  - apply healthy_keeps_flag.
  - intros override args Hov. discriminate Hov.
Defined.

End Runs.

(** ** Further properties of the train-steps *)

Section Wrapping.

Context {Ext : Type}.
Variable env : Collaborators Ext.

(** With a discriminator that is no autoencoder the generator loss is the
    bare call of the base class's train-step. *)
Lemma generator_train_ops_plain
  (self : EnergyBasedGeneratorLoss Ext) g d o dev n labels m :
  g_override_train_ops self = None ->
  is_autoencoding d = false ->
  EnergyBasedGeneratorLoss_train_ops env self g d o dev n labels m
  = call (CallBaseTrainOps (generator_args g d o dev n labels))
         (generator_loss_train_ops env self (generator_args g d o dev n labels))
         m.
Proof.
  intros Hov Hae. unfold EnergyBasedGeneratorLoss_train_ops.
  rewrite Hov, Hae.
  unfold bind, call, ret, generator_args; simpl.
  destruct (generator_loss_train_ops env self _ (world m)) as [[v|msg] w];
    reflexivity.
Qed.

Lemma discriminator_train_ops_plain
  (self : EnergyBasedDiscriminatorLoss Ext) g d o real dev n labels m :
  d_override_train_ops self = None ->
  is_autoencoding d = false ->
  EnergyBasedDiscriminatorLoss_train_ops env self g d o real dev n labels m
  = call (CallBaseTrainOps (base_discriminator_args g d o real dev labels))
         (discriminator_loss_train_ops env self
            (base_discriminator_args g d o real dev labels))
         m.
Proof.
  intros Hov Hae. unfold EnergyBasedDiscriminatorLoss_train_ops.
  rewrite Hov, Hae.
  unfold bind, call, ret, base_discriminator_args; simpl.
  destruct (discriminator_loss_train_ops env self _ (world m)) as [[v|msg] w];
    reflexivity.
Qed.

(** X1.  On a discriminator that is not an [AutoEncodingDiscriminator] the
    default [train_ops] of the generator loss and of the discriminator loss
    neither read nor write [embeddings]: the base class's train-step runs in
    the caller's store, its call is the only event, and its outcome and its
    store are handed back, whether it returns or raises. *)
Theorem wrapped_step_plain_discriminator :
  (forall (self : EnergyBasedGeneratorLoss Ext) g d o dev n labels m,
     g_override_train_ops self = None ->
     is_autoencoding d = false ->
     let base :=
       generator_loss_train_ops env self (generator_args g d o dev n labels)
         (world m) in
     EnergyBasedGeneratorLoss_train_ops env self g d o dev n labels m
     = (fst base,
        {| world := snd base;
           trace := trace m
                    ++ [CallBaseTrainOps (generator_args g d o dev n labels)]
        |}))
  /\
  (forall (self : EnergyBasedDiscriminatorLoss Ext) g d o real dev n labels m,
     d_override_train_ops self = None ->
     is_autoencoding d = false ->
     let base :=
       discriminator_loss_train_ops env self
         (base_discriminator_args g d o real dev labels) (world m) in
     EnergyBasedDiscriminatorLoss_train_ops env self g d o real dev n labels m
     = (fst base,
        {| world := snd base;
           trace := trace m
                    ++ [CallBaseTrainOps
                          (base_discriminator_args g d o real dev labels)]
        |})).
Proof.
  split.
  - intros self g d o dev n labels m Hov Hae base. unfold base.
    rewrite generator_train_ops_plain by assumption. unfold call.
    destruct (generator_loss_train_ops env self _ (world m)); reflexivity.
  - intros self g d o real dev n labels m Hov Hae base. unfold base.
    rewrite discriminator_train_ops_plain by assumption. unfold call.
    destruct (discriminator_loss_train_ops env self _ (world m)); reflexivity.
Qed.

(** X2.  Whatever the discriminator, the default [train_ops] of the
    generator loss and of the discriminator loss end as the base class's
    train-step ends: they return the value it returns and raise what it
    raises, and raise nothing of their own ([orig_value] is never read
    unbound). *)
Theorem wrapped_step_outcome :
  (forall (self : EnergyBasedGeneratorLoss Ext) g d o dev n labels m,
     g_override_train_ops self = None ->
     fst (EnergyBasedGeneratorLoss_train_ops env self g d o dev n labels m)
     = fst (generator_loss_train_ops env self
              (generator_args g d o dev n labels)
              (store_for_base d (world m))))
  /\
  (forall (self : EnergyBasedDiscriminatorLoss Ext) g d o real dev n labels m,
     d_override_train_ops self = None ->
     fst (EnergyBasedDiscriminatorLoss_train_ops env self g d o real dev n
            labels m)
     = fst (discriminator_loss_train_ops env self
              (base_discriminator_args g d o real dev labels)
              (store_for_base d (world m)))).
Proof.
  split.
  - intros self g d o dev n labels m Hov. unfold store_for_base.
    destruct (is_autoencoding d) eqn:Hae.
    + destruct (generator_loss_train_ops env self
                  (generator_args g d o dev n labels)
                  (set_flag d false (world m))) as [[v|msg] w2] eqn:Hbase.
      * rewrite (generator_train_ops_returns env self g d o dev n labels m v
                   w2 Hov Hae Hbase). reflexivity.
      * rewrite (generator_train_ops_raises env self g d o dev n labels m msg
                   w2 Hov Hae Hbase). reflexivity.
    + rewrite generator_train_ops_plain by assumption. unfold call.
      destruct (generator_loss_train_ops env self _ (world m)); reflexivity.
  - intros self g d o real dev n labels m Hov. unfold store_for_base.
    destruct (is_autoencoding d) eqn:Hae.
    + destruct (discriminator_loss_train_ops env self
                  (base_discriminator_args g d o real dev labels)
                  (set_flag d false (world m))) as [[v|msg] w2] eqn:Hbase.
      * rewrite (discriminator_train_ops_returns env self g d o real dev n
                   labels m v w2 Hov Hae Hbase). reflexivity.
      * rewrite (discriminator_train_ops_raises env self g d o real dev n
                   labels m msg w2 Hov Hae Hbase). reflexivity.
    + rewrite discriminator_train_ops_plain by assumption. unfold call.
      destruct (discriminator_loss_train_ops env self _ (world m));
        reflexivity.
Qed.

(** X3.  When the wrapped train-step returns on an autoencoding
    discriminator, the one thing it changed on top of the base class's
    train-step is the flag of the discriminator it was given: the
    collaborators' state and the flag of every other discriminator object
    are as the base train-step left them. *)
Theorem wrapped_step_frame :
  (forall (self : EnergyBasedGeneratorLoss Ext) g d o dev n labels m loss w2,
     g_override_train_ops self = None ->
     is_autoencoding d = true ->
     generator_loss_train_ops env self (generator_args g d o dev n labels)
       (set_flag d false (world m)) = (Returns loss, w2) ->
     let after :=
       world (snd (EnergyBasedGeneratorLoss_train_ops env self g d o dev n
                     labels m)) in
     ext after = ext w2
     /\ forall i, i <> discriminator_id d ->
          embeddings after i = embeddings w2 i)
  /\
  (forall (self : EnergyBasedDiscriminatorLoss Ext) g d o real dev n labels
          m loss w2,
     d_override_train_ops self = None ->
     is_autoencoding d = true ->
     discriminator_loss_train_ops env self
       (base_discriminator_args g d o real dev labels)
       (set_flag d false (world m)) = (Returns loss, w2) ->
     let after :=
       world (snd (EnergyBasedDiscriminatorLoss_train_ops env self g d o real
                     dev n labels m)) in
     ext after = ext w2
     /\ forall i, i <> discriminator_id d ->
          embeddings after i = embeddings w2 i).
Proof.
  split.
  - intros self g d o dev n labels m loss w2 Hov Hae Hbase after.
    unfold after.
    rewrite (generator_train_ops_returns env self g d o dev n labels m loss
               w2 Hov Hae Hbase); simpl.
    split; [reflexivity|]. intros i Hi.
    apply Nat.eqb_neq in Hi. rewrite Hi. reflexivity.
  - intros self g d o real dev n labels m loss w2 Hov Hae Hbase after.
    unfold after.
    rewrite (discriminator_train_ops_returns env self g d o real dev n labels
               m loss w2 Hov Hae Hbase); simpl.
    split; [reflexivity|]. intros i Hi.
    apply Nat.eqb_neq in Hi. rewrite Hi. reflexivity.
Qed.

(** X4.  On an autoencoding discriminator, with a base train-step that
    does not itself write the flag, the flag after the default [train_ops]
    is decided by how the call ends: its value of before the call when the
    call returns, [False] when it raises.  So a failure corrupts the flag
    exactly when it was enabled. *)
Theorem wrapped_step_flag_by_outcome :
  (forall (self : EnergyBasedGeneratorLoss Ext) g d o dev n labels m,
     g_override_train_ops self = None ->
     is_autoencoding d = true ->
     keeps_flag d (generator_loss_train_ops env self
                     (generator_args g d o dev n labels)) ->
     let result :=
       EnergyBasedGeneratorLoss_train_ops env self g d o dev n labels m in
     flag_of d (world (snd result))
     = match fst result with
       | Returns _ => flag_of d (world m)
       | Raises _ => false
       end)
  /\
  (forall (self : EnergyBasedDiscriminatorLoss Ext) g d o real dev n labels m,
     d_override_train_ops self = None ->
     is_autoencoding d = true ->
     keeps_flag d (discriminator_loss_train_ops env self
                     (base_discriminator_args g d o real dev labels)) ->
     let result :=
       EnergyBasedDiscriminatorLoss_train_ops env self g d o real dev n
         labels m in
     flag_of d (world (snd result))
     = match fst result with
       | Returns _ => flag_of d (world m)
       | Raises _ => false
       end).
Proof.
  split.
  - intros self g d o dev n labels m Hov Hae Hkeep result. unfold result.
    specialize (Hkeep (set_flag d false (world m))).
    destruct (generator_loss_train_ops env self
                (generator_args g d o dev n labels)
                (set_flag d false (world m))) as [[v|msg] w2] eqn:Hbase.
    + rewrite (generator_train_ops_returns env self g d o dev n labels m v
                 w2 Hov Hae Hbase); simpl. apply flag_of_set_flag.
    + rewrite (generator_train_ops_raises env self g d o dev n labels m msg
                 w2 Hov Hae Hbase); simpl.
      simpl in Hkeep. rewrite Hkeep. apply flag_of_set_flag.
  - intros self g d o real dev n labels m Hov Hae Hkeep result. unfold result.
    specialize (Hkeep (set_flag d false (world m))).
    destruct (discriminator_loss_train_ops env self
                (base_discriminator_args g d o real dev labels)
                (set_flag d false (world m))) as [[v|msg] w2] eqn:Hbase.
    + rewrite (discriminator_train_ops_returns env self g d o real dev n
                 labels m v w2 Hov Hae Hbase); simpl. apply flag_of_set_flag.
    + rewrite (discriminator_train_ops_raises env self g d o real dev n
                 labels m msg w2 Hov Hae Hbase); simpl.
      simpl in Hkeep. rewrite Hkeep. apply flag_of_set_flag.
Qed.

End Wrapping.

(** *** After the checks of the pulling-away term *)



Section PullingAway.

Context {Ext : Type}.
Variable env : Collaborators Ext.


(** Once the three checks have passed, the first thing a default
    pulling-away step does is to sample the noise. *)
Lemma pulling_away_passes_checks
  (self : EnergyBasedPullingAwayTerm Ext) g d o dev n labels m :
  pt_override_train_ops self = None ->
  is_autoencoding d = true ->
  label_type g = "none"%string ->
  flag_of d (world m) = true ->
  exists rest,
    emits (EnergyBasedPullingAwayTerm_train_ops env self g d o dev n labels)
      m (CallRandn n (encoding_dims g) dev :: rest).
Proof.
  intros Hov Hae Hlab Hflag. apply String.eqb_eq in Hlab.
  unfold flag_of in Hflag.
  unfold emits, EnergyBasedPullingAwayTerm_train_ops.
  rewrite Hov, Hae, Hlab.
  unfold require at 1 2. unfold bind at 1 2 3 4.
  unfold ret at 1 2. unfold getattr_embeddings at 1.
  rewrite Hflag. unfold require at 1. unfold ret at 1.
  match goal with
  | |- context [bind (call ?e ?f) ?k] =>
      assert (Hk : forall a, writes_nothing (k a));
      [ intros a;
        repeat first
          [ apply writes_nothing_bind; [|intros ?]
          | apply writes_nothing_call; reflexivity
          | apply writes_nothing_unpack
          | apply writes_nothing_ret ]
      | unfold bind at 1, call at 1;
        destruct (f (world m)) as [[noise|msg] w1] ]
  end.
  - destruct (Hk noise
                {| world := w1;
                   trace := trace m ++ [CallRandn n (encoding_dims g) dev] |})
      as (rest & E & _).
    exists rest. unfold emits in E. rewrite E; simpl.
    rewrite <- app_assoc. reflexivity.
  - exists []. reflexivity.
Qed.

(** X6.  A wrapped train-step that failed poisons the next loss term: when
    the base class's train-step raises and leaves the flag as it found it
    (disabled), a default pulling-away step run next on the same
    discriminator fails its [embeddings] check and does nothing, even
    though the flag may have been enabled before the failed call. *)
Theorem pulling_away_refuses_after_crash
  (pt : EnergyBasedPullingAwayTerm Ext) :
  pt_override_train_ops pt = None ->
  (forall (self : EnergyBasedGeneratorLoss Ext) g d o dev n labels m msg w2,
     g_override_train_ops self = None ->
     is_autoencoding d = true ->
     label_type g = "none"%string ->
     generator_loss_train_ops env self (generator_args g d o dev n labels)
       (set_flag d false (world m)) = (Raises msg, w2) ->
     flag_of d w2 = false ->
     let m1 :=
       snd (EnergyBasedGeneratorLoss_train_ops env self g d o dev n labels m)
     in
     EnergyBasedPullingAwayTerm_train_ops env pt g d o dev n labels m1
     = (Raises MSG_EMBEDDINGS, m1))
  /\
  (forall (self : EnergyBasedDiscriminatorLoss Ext) g d o real dev n labels
          m msg w2,
     d_override_train_ops self = None ->
     is_autoencoding d = true ->
     label_type g = "none"%string ->
     discriminator_loss_train_ops env self
       (base_discriminator_args g d o real dev labels)
       (set_flag d false (world m)) = (Raises msg, w2) ->
     flag_of d w2 = false ->
     let m1 :=
       snd (EnergyBasedDiscriminatorLoss_train_ops env self g d o real dev n
              labels m) in
     EnergyBasedPullingAwayTerm_train_ops env pt g d o dev n labels m1
     = (Raises MSG_EMBEDDINGS, m1)).
Proof.
  intros Hpt. split.
  - intros self g d o dev n labels m msg w2 Hov Hae Hlab Hbase Hflag m1.
    apply pulling_away_rejects_disabled_embeddings; try assumption.
    unfold m1.
    rewrite (generator_train_ops_raises env self g d o dev n labels m msg w2
               Hov Hae Hbase). exact Hflag.
  - intros self g d o real dev n labels m msg w2 Hov Hae Hlab Hbase Hflag m1.
    apply pulling_away_rejects_disabled_embeddings; try assumption.
    unfold m1.
    rewrite (discriminator_train_ops_raises env self g d o real dev n labels
               m msg w2 Hov Hae Hbase). exact Hflag.
Qed.

(** X7.  A wrapped train-step that returned leaves the pulling-away term
    runnable: with the flag enabled before the call, a default
    pulling-away step run next on the same discriminator passes its three
    checks and goes on to sample the noise, whatever the base class's
    train-step did to the flag in between. *)
Theorem pulling_away_runs_after_wrapped_step
  (pt : EnergyBasedPullingAwayTerm Ext) :
  pt_override_train_ops pt = None ->
  (forall (self : EnergyBasedGeneratorLoss Ext) g d o dev n labels m loss w2,
     g_override_train_ops self = None ->
     is_autoencoding d = true ->
     label_type g = "none"%string ->
     flag_of d (world m) = true ->
     generator_loss_train_ops env self (generator_args g d o dev n labels)
       (set_flag d false (world m)) = (Returns loss, w2) ->
     let m1 :=
       snd (EnergyBasedGeneratorLoss_train_ops env self g d o dev n labels m)
     in
     exists rest,
       emits (EnergyBasedPullingAwayTerm_train_ops env pt g d o dev n labels)
         m1 (CallRandn n (encoding_dims g) dev :: rest))
  /\
  (forall (self : EnergyBasedDiscriminatorLoss Ext) g d o real dev n labels
          m loss w2,
     d_override_train_ops self = None ->
     is_autoencoding d = true ->
     label_type g = "none"%string ->
     flag_of d (world m) = true ->
     discriminator_loss_train_ops env self
       (base_discriminator_args g d o real dev labels)
       (set_flag d false (world m)) = (Returns loss, w2) ->
     let m1 :=
       snd (EnergyBasedDiscriminatorLoss_train_ops env self g d o real dev n
              labels m) in
     exists rest,
       emits (EnergyBasedPullingAwayTerm_train_ops env pt g d o dev n labels)
         m1 (CallRandn n (encoding_dims g) dev :: rest)).
Proof.
  intros Hpt. split.
  - intros self g d o dev n labels m loss w2 Hov Hae Hlab Hflag Hbase m1.
    apply pulling_away_passes_checks; try assumption.
    unfold m1.
    rewrite (generator_train_ops_returns env self g d o dev n labels m loss
               w2 Hov Hae Hbase); cbn [snd world].
    rewrite flag_of_set_flag. exact Hflag.
  - intros self g d o real dev n labels m loss w2 Hov Hae Hlab Hflag Hbase m1.
    apply pulling_away_passes_checks; try assumption.
    unfold m1.
    rewrite (discriminator_train_ops_returns env self g d o real dev n labels
               m loss w2 Hov Hae Hbase); cbn [snd world].
    rewrite flag_of_set_flag. exact Hflag.
Qed.

End PullingAway.

(** ** The further properties on the concrete collaborators *)

Module MoreRuns.

Import Fixture.

Lemma wrapped_step_plain_discriminator_witness :
  EnergyBasedGeneratorLoss_train_ops healthy generator_loss mnist_generator
    dcgan_discriminator adam cpu 2 PyNone (start all_enabled)
  = (Returns (PyFloat 0),
     {| world := count_step all_enabled;
        trace := [CallBaseTrainOps
                    (generator_args mnist_generator dcgan_discriminator adam
                       cpu 2 PyNone)] |})
  /\ EnergyBasedDiscriminatorLoss_train_ops crashing discriminator_loss
       mnist_generator dcgan_discriminator adam real_batch cpu 2 PyNone
       (start all_enabled)
     = (Raises "CUDA out of memory"%string,
        {| world := all_enabled;
           trace := [CallBaseTrainOps
                       (base_discriminator_args mnist_generator
                          dcgan_discriminator adam real_batch cpu PyNone)] |}).
Proof.
  split.
  - destruct (wrapped_step_plain_discriminator healthy) as [HG _].
    exact (HG generator_loss mnist_generator dcgan_discriminator adam cpu 2%Z
             PyNone (start all_enabled) eq_refl eq_refl).
  - destruct (wrapped_step_plain_discriminator crashing) as [_ HD].
    exact (HD discriminator_loss mnist_generator dcgan_discriminator adam
             real_batch cpu 2%Z PyNone (start all_enabled) eq_refl eq_refl).
Defined.

Lemma wrapped_step_outcome_witness :
  fst (EnergyBasedGeneratorLoss_train_ops crashing generator_loss
         mnist_generator autoencoder adam cpu 2 PyNone (start all_enabled))
  = Raises "CUDA out of memory"%string
  /\ fst (EnergyBasedDiscriminatorLoss_train_ops healthy discriminator_loss
            mnist_generator dcgan_discriminator adam real_batch cpu 2 PyNone
            (start all_enabled))
     = Returns (PyFloat 0).
Proof.
  split.
  - destruct (wrapped_step_outcome crashing) as [HG _].
    exact (HG generator_loss mnist_generator autoencoder adam cpu 2%Z PyNone
             (start all_enabled) eq_refl).
  - destruct (wrapped_step_outcome healthy) as [_ HD].
    exact (HD discriminator_loss mnist_generator dcgan_discriminator adam
             real_batch cpu 2%Z PyNone (start all_enabled) eq_refl).
Defined.

Lemma wrapped_step_frame_witness :
  let after :=
    world (snd (EnergyBasedGeneratorLoss_train_ops healthy generator_loss
                  mnist_generator autoencoder adam cpu 2 PyNone
                  (start all_enabled))) in
  ext after = 1%nat
  /\ flag_of dcgan_discriminator after = true.
Proof.
  destruct (wrapped_step_frame healthy) as [HG _].
  destruct (HG generator_loss mnist_generator autoencoder adam cpu 2%Z PyNone
              (start all_enabled) (PyFloat 0)
              (count_step (set_flag autoencoder false all_enabled))
              eq_refl eq_refl eq_refl) as [Hext Hflags].
  split; [exact Hext|].
  apply (Hflags (discriminator_id dcgan_discriminator)). discriminate.
Defined.

Lemma wrapped_step_flag_by_outcome_witness :
  flag_of autoencoder
    (world (snd (EnergyBasedGeneratorLoss_train_ops crashing generator_loss
                   mnist_generator autoencoder adam cpu 2 PyNone
                   (start all_enabled))))
  = false
  /\ flag_of autoencoder
       (world (snd (EnergyBasedDiscriminatorLoss_train_ops healthy
                      discriminator_loss mnist_generator autoencoder adam
                      real_batch cpu 2 PyNone (start all_enabled))))
     = true.
Proof.
  split.
  - destruct (wrapped_step_flag_by_outcome crashing) as [HG _].
    exact (HG generator_loss mnist_generator autoencoder adam cpu 2%Z PyNone
             (start all_enabled) eq_refl eq_refl (fun w => eq_refl)).
  - destruct (wrapped_step_flag_by_outcome healthy) as [_ HD].
    exact (HD discriminator_loss mnist_generator autoencoder adam real_batch
             cpu 2%Z PyNone (start all_enabled) eq_refl eq_refl
             (fun w => eq_refl)).
Defined.


(** A discriminator that returns a single tensor of first dimension 2:
    the unpacking takes its two slices for [d_hid] and [dgz], and the step
    goes on to back-propagate and to step the optimizer. *)
Lemma pulling_away_unpacks_two_slices :
  let loss := EnergyBasedPullingAwayTerm_forward pulling_away [1] [[1]] in
  EnergyBasedPullingAwayTerm_train_ops score_only pulling_away
    mnist_generator autoencoder adam cpu 2 PyNone (start all_enabled)
  = (Returns (PyFloat loss),
     {| world := count_step all_enabled;
        trace := pulling_away_script mnist_generator autoencoder adam cpu 2
                   [[1; 0]; [0; 1]] [[1; 0]; [0; 1]] loss |}).
Proof.
  reflexivity.
Qed.

Lemma pulling_away_refuses_after_crash_witness :
  let m1 :=
    snd (EnergyBasedGeneratorLoss_train_ops crashing generator_loss
           mnist_generator autoencoder adam cpu 2 PyNone (start all_enabled))
  in
  flag_of autoencoder all_enabled = true
  /\ EnergyBasedPullingAwayTerm_train_ops crashing pulling_away
       mnist_generator autoencoder adam cpu 2 PyNone m1
     = (Raises MSG_EMBEDDINGS, m1).
Proof.
  split; [reflexivity|].
  destruct (pulling_away_refuses_after_crash crashing pulling_away eq_refl)
    as [HG _].
  exact (HG generator_loss mnist_generator autoencoder adam cpu 2%Z PyNone
           (start all_enabled) "CUDA out of memory"%string
           (set_flag autoencoder false all_enabled)
           eq_refl eq_refl eq_refl eq_refl eq_refl).
Defined.

Lemma pulling_away_runs_after_wrapped_step_witness :
  let m1 :=
    snd (EnergyBasedDiscriminatorLoss_train_ops healthy discriminator_loss
           mnist_generator autoencoder adam real_batch cpu 2 PyNone
           (start all_enabled)) in
  exists rest,
    emits (EnergyBasedPullingAwayTerm_train_ops healthy pulling_away
             mnist_generator autoencoder adam cpu 2 PyNone)
      m1 (CallRandn 2 2 cpu :: rest).
Proof.
  destruct (pulling_away_runs_after_wrapped_step healthy pulling_away eq_refl)
    as [_ HD].
  exact (HD discriminator_loss mnist_generator autoencoder adam real_batch cpu
           2%Z PyNone (start all_enabled) (PyFloat 0)
           (count_step (set_flag autoencoder false all_enabled))
           eq_refl eq_refl eq_refl eq_refl eq_refl).
Defined.

End MoreRuns.
